(** * Sentiment analysis pipeline: a shallow embedding of [SentimentAnalyzer]

    The development follows [sentiment_analyzer.py]: the result validator,
    the keyword fallback classifier, the single-item and chunked drivers of
    the external model, and the summary statistics.

    Conventions of the embedding.
    - A Python [str] is a Rocq [string]; a character stands for a code point
      below 256.
    - A Python [float] is a binary64 value, the kernel's primitive [float];
      operations that Python rounds once from exact operands are computed on
      [spec_float] with the functions of [SpecFloat].
    - A Python [int] is a [Z].
    - An exception caught by [except Exception] is the result [None] of a
      computation in the monad [Exc]; a method that catches everything lives in
      the monad [St] and always returns.
    - The external model and the wall clock are oracles read through a
      [world] that counts their uses. *)

From Stdlib Require Import ZArith List String Ascii Bool Lia Floats PArith DecimalString.
From Stdlib Require Import Sorted Permutation FMapPositive.
Import ListNotations.

Local Open Scope string_scope.
Local Open Scope list_scope.

(** ** Python strings *)

Module PyStr.

Definition code (c : ascii) : nat := nat_of_ascii c.

(** [str.lower] on one code point below 256: the ASCII capitals and the
    Latin-1 capitals (0xC0..0xDE without the multiplication sign 0xD7) move
    up by 32, every other code point is kept. *)
Definition lower_char (c : ascii) : ascii :=
  let n := code c in
  if ((65 <=? n) && (n <=? 90))%nat
     || ((192 <=? n) && (n <=? 222) && negb (n =? 215))%nat
  then ascii_of_nat (n + 32) else c.

Fixpoint lower (s : string) : string :=
  match s with
  | EmptyString => EmptyString
  | String c s' => String (lower_char c) (lower s')
  end.

(** [w in s] for two strings: [w] occurs in [s] as a contiguous substring. *)
Fixpoint contains (w s : string) : bool :=
  prefix w s ||
  match s with
  | EmptyString => false
  | String _ s' => contains w s'
  end.

(** Number of positions of [s] at which [w] starts (overlaps counted). *)
Fixpoint occurrences (w s : string) : nat :=
  (if prefix w s then 1 else 0)
  + match s with
    | EmptyString => 0
    | String _ s' => occurrences w s'
    end.

(** [s[:n]] *)
Definition take (n : nat) (s : string) : string := substring 0 n s.

(** Code points that [str.strip] removes: the ASCII white space, the
    separators 0x1C..0x1F, NEL (0x85) and the no-break space (0xA0). *)
Definition is_space (c : ascii) : bool :=
  let n := code c in
  (((9 <=? n) && (n <=? 13)) || ((28 <=? n) && (n <=? 32))
   || (n =? 133) || (n =? 160))%nat.

Fixpoint lstrip (s : string) : string :=
  match s with
  | String c s' => if is_space c then lstrip s' else s
  | EmptyString => EmptyString
  end.

Fixpoint rstrip (s : string) : string :=
  match s with
  | EmptyString => EmptyString
  | String c s' =>
      match rstrip s' with
      | EmptyString => if is_space c then EmptyString else String c EmptyString
      | r => String c r
      end
  end.

Definition strip (s : string) : string := rstrip (lstrip s).

(** Index of the first occurrence of the character [c], counted from [i]. *)
Fixpoint find_first (c : ascii) (s : string) (i : nat) : option nat :=
  match s with
  | EmptyString => None
  | String a s' => if Ascii.eqb a c then Some i else find_first c s' (S i)
  end.

(** Index of the last occurrence of the character [c], counted from [i]. *)
Fixpoint find_last (c : ascii) (s : string) (i : nat) : option nat :=
  match s with
  | EmptyString => None
  | String a s' =>
      match find_last c s' (S i) with
      | Some j => Some j
      | None => if Ascii.eqb a c then Some i else None
      end
  end.

(** [re.search(open + '.*' + close, s, re.DOTALL)] followed by [.group()],
    for two literal delimiter characters: the leftmost match starts at the
    first [open] that has a [close] after it, and the greedy [.*] runs to
    the last [close] of the text.  [None] is the failed search. *)
Definition search_delimited (open close : ascii) (s : string) : option string :=
  match find_first open s 0, find_last close s 0 with
  | Some i, Some j => if (i <? j)%nat then Some (substring i (j - i + 1) s) else None
  | _, _ => None
  end.

End PyStr.

(** ** Python numbers *)

#[local] Set Warnings "-inexact-float,-register-all".

Module PyNum.

(** An integer as an exact (not normalised) operand of [SpecFloat]. *)
Definition SF_of_Z (z : Z) : spec_float :=
  match z with
  | Z0 => S754_zero false
  | Zpos p => S754_finite false p 0
  | Zneg p => S754_finite true p 0
  end.

Definition is_infinity (x : spec_float) : bool :=
  match x with S754_infinity _ => true | _ => false end.

(** [float(z)] for an [int]: the nearest binary64 value, ties to even;
    [OverflowError] when that is out of range. *)
Definition float_of_int (z : Z) : option float :=
  let x := binary_normalize prec emax z 0 false in
  if is_infinity x then None else Some (SF2Prim x).

(** [a / b] for two [int]s: the exact quotient rounded once;
    [ZeroDivisionError] for [b = 0], [OverflowError] out of range. *)
Definition int_truediv (a b : Z) : option float :=
  if (b =? 0)%Z then None
  else
    let x := SFdiv prec emax (SF_of_Z a) (SF_of_Z b) in
    if is_infinity x then None else Some (SF2Prim x).

(** [int(x)] for a [float]: truncation toward zero; [ValueError] for a NaN
    and [OverflowError] for an infinity. *)
Definition int_of_float (x : float) : option Z :=
  match Prim2SF x with
  | S754_zero _ => Some 0%Z
  | S754_finite s m e =>
      let a := if (0 <=? e)%Z then Z.shiftl (Zpos m) e
               else Z.shiftr (Zpos m) (- e) in
      Some (if s then (- a)%Z else a)
  | S754_infinity _ | S754_nan => None
  end.

(** Nearest integer to [a / b] for [0 <= a], [0 < b], ties to even. *)
Definition div_half_even (a b : Z) : Z :=
  let q := (a / b)%Z in
  let r := (a mod b)%Z in
  match (2 * r ?= b)%Z with
  | Lt => q
  | Gt => (q + 1)%Z
  | Eq => if Z.even q then q else (q + 1)%Z
  end.

(** Tenths, hundredths, ... of [|x|] for a finite [x = m * 2^e] with
    [e < 0]: the integer nearest to [|x| * 10^d], ties to even. *)
Definition scaled_digits (m : positive) (e : Z) (d : Z) : Z :=
  div_half_even (Zpos m * 10 ^ d) (2 ^ (- e)).

(** [round(x, d)] for a [float] and a number of decimals [0 <= d]: the
    decimal with [d] places nearest to the exact value of [x] (ties to
    even), then the binary64 value nearest to that decimal.  An integral
    value, a zero, an infinity and a NaN are returned unchanged. *)
Definition round_sf (x : spec_float) (d : Z) : spec_float :=
  match x with
  | S754_finite s m e =>
      if (0 <=? e)%Z then x
      else
        match scaled_digits m e d with
        | Zpos k => SFdiv prec emax (S754_finite s k 0) (SF_of_Z (10 ^ d))
        | _ => S754_zero s
        end
  | _ => x
  end.

Definition round (x : float) (d : Z) : float :=
  match Prim2SF x with
  | S754_finite s m e =>
      if (0 <=? e)%Z then x else SF2Prim (round_sf (S754_finite s m e) d)
  | _ => x
  end.

(** The two-argument [min] and [max]: the first argument is kept unless the
    second is strictly smaller (greater). *)
Definition min_float (a b : float) : float := if PrimFloat.ltb b a then b else a.
Definition max_float (a b : float) : float := if PrimFloat.ltb a b then b else a.
Definition min_int (a b : Z) : Z := if (b <? a)%Z then b else a.
Definition max_int (a b : Z) : Z := if (a <? b)%Z then b else a.

End PyNum.

(** ** Decoded JSON values *)

(** What [json.loads] returns: [None], [bool], [int], [float], [str], [list]
    and [dict] with string keys, the dictionary in insertion order. *)
Inductive json : Type :=
| JNull
| JBool (b : bool)
| JInt (z : Z)
| JFloat (f : float)
| JStr (s : string)
| JList (l : list json)
| JDict (d : list (string * json)).

Module Json.

(** [d.get(key, default)] *)
Fixpoint get (d : list (string * json)) (key : string) (default : json) : json :=
  match d with
  | [] => default
  | (k, v) :: d' => if String.eqb k key then v else get d' key default
  end.


Fixpoint chars (s : string) : list json :=
  match s with
  | EmptyString => []
  | String c s' => JStr (String c EmptyString) :: chars s'
  end.

(** Iteration ([for x in v], [list.extend(v)]): the items of a list, the
    characters of a string, the keys of a dictionary; [TypeError] for the
    other values. *)
Definition iter (v : json) : option (list json) :=
  match v with
  | JList l => Some l
  | JStr s => Some (chars s)
  | JDict d => Some (map (fun kv => JStr (fst kv)) d)
  | JNull | JBool _ | JInt _ | JFloat _ => None
  end.

Definition is_str (v : json) : bool :=
  match v with JStr _ => true | _ => false end.

(** A list whose items are all strings. *)
Definition is_str_list (v : json) : bool :=
  match v with JList l => forallb is_str l | _ => false end.

(** Exact comparison of a binary64 value with an integer. *)
Definition float_eq_int (f : float) (z : Z) : bool :=
  match Prim2SF f with
  | S754_zero _ => (z =? 0)%Z
  | S754_finite s m e =>
      let a := if s then Zneg m else Zpos m in
      if (0 <=? e)%Z then (Z.shiftl a e =? z)%Z
      else (a =? Z.shiftl z (- e))%Z
  | S754_infinity _ | S754_nan => false
  end.

Definition int_of_bool (b : bool) : Z := if b then 1%Z else 0%Z.

Definition is_nan (f : float) : bool :=
  match Prim2SF f with S754_nan => true | _ => false end.

(** Equality of two dictionary keys, for the hashable values: numbers
    compare by value across [bool], [int] and [float]; the NaN that
    [json.loads] yields is one object and so equal to itself as a key.
    [None] is the [TypeError] of an unhashable key (a list or a dict). *)
Definition key_eqb (a b : json) : option bool :=
  match a, b with
  | JList _, _ | JDict _, _ | _, JList _ | _, JDict _ => None
  | JNull, JNull => Some true
  | JStr x, JStr y => Some (String.eqb x y)
  | JBool x, JBool y => Some (Bool.eqb x y)
  | JBool x, JInt y | JInt y, JBool x => Some (int_of_bool x =? y)%Z
  | JBool x, JFloat y | JFloat y, JBool x => Some (float_eq_int y (int_of_bool x))
  | JInt x, JInt y => Some (x =? y)%Z
  | JInt x, JFloat y | JFloat y, JInt x => Some (float_eq_int y x)
  | JFloat x, JFloat y => Some (PrimFloat.eqb x y || (is_nan x && is_nan y))
  | _, _ => Some false
  end.

Definition hashable (a : json) : bool :=
  match a with JList _ | JDict _ => false | _ => true end.

End Json.

(** ** Results, the outside world and the two monads *)

(** The dictionary that [validate_result] and [fallback_analysis] build; its
    seven keys are always present.  [emotions] and [key_phrases] hold whatever
    value the decoded record held. *)
Record Result : Type := mkResult {
  sentiment : string;
  confidence : float;
  emotions : json;
  key_phrases : json;
  intensity : Z;
  original_text : string;
  analyzed_at : string
}.

Definition set_sentiment (r : Result) (v : string) : Result :=
  mkResult v (confidence r) (emotions r) (key_phrases r) (intensity r)
           (original_text r) (analyzed_at r).

Definition set_confidence (r : Result) (v : float) : Result :=
  mkResult (sentiment r) v (emotions r) (key_phrases r) (intensity r)
           (original_text r) (analyzed_at r).

Definition set_intensity (r : Result) (v : Z) : Result :=
  mkResult (sentiment r) (confidence r) (emotions r) (key_phrases r) v
           (original_text r) (analyzed_at r).

(** What one call of the external model gives back: an exception (from
    [generate_content] or from reading [response.text]) or the text. *)
Inductive reply : Type :=
| Raised
| Text (s : string).

(** The two oracles.  The answer of the model may depend on the prompt and on
    how many calls were made before; the clock on how often it was read. *)
Record env : Type := mkEnv {
  generate_content : nat -> string -> reply;
  isoformat_now : nat -> string
}.

(** The prompts sent so far (latest first) and the number of clock reads. *)
Record world : Type := mkWorld {
  calls : list string;
  ticks : nat
}.

Definition world0 : world := mkWorld [] 0.

Definition St (A : Type) : Type := world -> A * world.
Definition Exc (A : Type) : Type := world -> option A * world.

Module Monad.

Definition ret {A} (a : A) : Exc A := fun w => (Some a, w).

Definition raise {A} : Exc A := fun w => (None, w).

Definition bind {A B} (m : Exc A) (k : A -> Exc B) : Exc B :=
  fun w =>
    match m w with
    | (Some a, w') => k a w'
    | (None, w') => (None, w')
    end.

(** A pure step that may raise. *)
Definition lift {A} (o : option A) : Exc A := fun w => (o, w).

Definition sret {A} (a : A) : St A := fun w => (a, w).

Definition sbind {A B} (m : St A) (k : A -> St B) : St B :=
  fun w => let (a, w') := m w in k a w'.

(** A step that never raises, used where exceptions may. *)
Definition total {A} (m : St A) : Exc A :=
  fun w => let (a, w') := m w in (Some a, w').

(** [try: body  except Exception: handler] *)
Definition try_except {A} (body : Exc A) (handler : St A) : St A :=
  fun w =>
    match body w with
    | (Some a, w') => (a, w')
    | (None, w') => handler w'
    end.

(** [[f(x) for x in xs]] *)
Fixpoint smap {A B} (f : A -> St B) (xs : list A) : St (list B) :=
  match xs with
  | [] => sret []
  | x :: xs' => sbind (f x) (fun y => sbind (smap f xs') (fun ys => sret (y :: ys)))
  end.

End Monad.

Declare Scope exc_scope.
Delimit Scope exc_scope with exc.
Notation "x <- m ;; k" := (Monad.bind m (fun x => k))
  (at level 100, m at next level, right associativity) : exc_scope.
Notation "x <~ m ;; k" := (Monad.sbind m (fun x => k))
  (at level 100, m at next level, right associativity) : exc_scope.

Local Open Scope exc_scope.

(** ** The prompts *)

Module Prompt.

Definition nl : string := String (ascii_of_nat 10) EmptyString.
Definition dq : string := String (ascii_of_nat 34) EmptyString.
Definition bs : string := String (ascii_of_nat 92) EmptyString.

(** [s] between double quotes. *)
Definition qt (s : string) : string := dq ++ s ++ dq.

(** One line of a template: the twelve blanks of the source's indentation,
    the text, a line feed. *)
Definition line (s : string) : string := "            " ++ s ++ nl.

Definition hex_digit (n : nat) : string :=
  String (ascii_of_nat (if (n <? 10)%nat then 48 + n else 87 + n)) EmptyString.

(** [json.dumps] of one character (with [ensure_ascii]): the short escapes,
    and [\u00XX] for whatever is outside the printable ASCII range. *)
Definition escape_char (c : ascii) : string :=
  let n := nat_of_ascii c in
  if (n =? 34)%nat then bs ++ dq
  else if (n =? 92)%nat then bs ++ bs
  else if (n =? 10)%nat then bs ++ "n"
  else if (n =? 13)%nat then bs ++ "r"
  else if (n =? 9)%nat then bs ++ "t"
  else if (n =? 12)%nat then bs ++ "f"
  else if (n =? 8)%nat then bs ++ "b"
  else if ((32 <=? n) && (n <=? 126))%nat then String c EmptyString
  else bs ++ "u00" ++ hex_digit (n / 16) ++ hex_digit (n mod 16).

Fixpoint escape (s : string) : string :=
  match s with
  | EmptyString => EmptyString
  | String c s' => escape_char c ++ escape s'
  end.

Definition dumps_str (s : string) : string := qt (escape s).

Definition dumps_nat (n : nat) : string :=
  DecimalString.NilZero.string_of_uint (Nat.to_uint n).

(** [json.dumps({"id": i, "text": text})] *)
Definition dumps_item (i : nat) (text : string) : string :=
  "{" ++ qt "id" ++ ": " ++ dumps_nat i ++ ", "
      ++ qt "text" ++ ": " ++ dumps_str text ++ "}".

Fixpoint dumps_items (i : nat) (texts : list string) : string :=
  match texts with
  | [] => EmptyString
  | [t] => dumps_item i t
  | t :: rest => dumps_item i t ++ ", " ++ dumps_items (S i) rest
  end.

(** [json.dumps([{"id": i, "text": text} for i, text in enumerate(texts)])] *)
Definition texts_json (texts : list string) : string :=
  "[" ++ dumps_items 0 texts ++ "]".

Definition three_values : string :=
  qt "positive" ++ " or " ++ qt "negative" ++ " or " ++ qt "neutral".

Definition rule_sentiment : string :=
  "- sentiment must be exactly " ++ qt "positive" ++ ", " ++ qt "negative"
    ++ ", or " ++ qt "neutral".

Definition single (text : string) : string :=
  nl
  ++ line "Analyze the sentiment of the following text and return ONLY a JSON response:"
  ++ line ""
  ++ line ("Text: " ++ qt text)
  ++ line ""
  ++ line "Return exactly this JSON format:"
  ++ line "{"
  ++ line ("    " ++ qt "sentiment" ++ ": " ++ three_values ++ ",")
  ++ line ("    " ++ qt "confidence" ++ ": confidence_score_0_to_1,")
  ++ line ("    " ++ qt "emotions" ++ ": [" ++ qt "happy" ++ ", " ++ qt "sad" ++ ", "
             ++ qt "angry" ++ ", " ++ qt "excited" ++ ", " ++ qt "neutral" ++ "],")
  ++ line ("    " ++ qt "key_phrases" ++ ": [" ++ qt "important" ++ ", " ++ qt "phrases"
             ++ ", " ++ qt "from" ++ ", " ++ qt "text" ++ "],")
  ++ line ("    " ++ qt "intensity" ++ ": intensity_score_1_to_10")
  ++ line "}"
  ++ line ""
  ++ line "Rules:"
  ++ line rule_sentiment
  ++ line "- confidence must be a number between 0 and 1"
  ++ line "- emotions should be relevant emotions detected"
  ++ line "- key_phrases should be 3-5 important words/phrases"
  ++ line "- intensity should be 1-10 (1=very mild, 10=very strong)"
  ++ "            ".

Definition batch (texts : list string) : string :=
  nl
  ++ line "Analyze the sentiment of these texts and return ONLY a JSON array:"
  ++ line ""
  ++ line ("Texts: " ++ texts_json texts)
  ++ line ""
  ++ line "Return exactly this JSON format:"
  ++ line "["
  ++ line "    {"
  ++ line ("        " ++ qt "id" ++ ": 0,")
  ++ line ("        " ++ qt "sentiment" ++ ": " ++ three_values ++ ",")
  ++ line ("        " ++ qt "confidence" ++ ": confidence_score_0_to_1,")
  ++ line ("        " ++ qt "emotions" ++ ": [" ++ qt "relevant" ++ ", " ++ qt "emotions" ++ "],")
  ++ line ("        " ++ qt "key_phrases" ++ ": [" ++ qt "important" ++ ", " ++ qt "phrases" ++ "],")
  ++ line ("        " ++ qt "intensity" ++ ": intensity_score_1_to_10")
  ++ line "    },"
  ++ line "    ..."
  ++ line "]"
  ++ line ""
  ++ line "Rules:"
  ++ line "- Return analysis for each text with matching id"
  ++ line rule_sentiment
  ++ line "- confidence must be between 0 and 1"
  ++ line "- intensity must be between 1 and 10"
  ++ "            ".

End Prompt.

(** ** The analyzer *)

Definition positive_words : list string :=
  ["good"; "great"; "excellent"; "amazing"; "love"; "best"; "wonderful"; "fantastic"].

Definition negative_words : list string :=
  ["bad"; "terrible"; "awful"; "hate"; "worst"; "horrible"; "disappointing"].

Definition sentiment_values : list string := ["positive"; "negative"; "neutral"].

(** [x in xs] for a list of strings. *)
Definition in_list (x : string) (xs : list string) : bool :=
  existsb (String.eqb x) xs.

(** [sum(1 for word in words if word in text_lower)] *)
Definition count_present (words : list string) (text_lower : string) : nat :=
  List.length (filter (fun word => PyStr.contains word text_lower) words).

(** [text[:100] + "..." if len(text) > 100 else text] *)
Definition truncate (text : string) : string :=
  if (100 <? String.length text)%nat then PyStr.take 100 text ++ "..." else text.

Definition batch_size : nat := 5.

(** [texts[i:j]] for [i <= j] *)
Definition slice {A} (xs : list A) (i j : nat) : list A := firstn (j - i) (skipn i xs).

(** [range(start, stop, step)] for a positive step; [stop] bounds the number
    of values. *)
Fixpoint range_from (fuel start stop step : nat) : list nat :=
  match fuel with
  | O => []
  | S fuel' =>
      if (start <? stop)%nat then start :: range_from fuel' (start + step) stop step
      else []
  end.

Definition range (start stop step : nat) : list nat := range_from stop start stop step.

Section Analyzer.

(** The parts of the Python runtime that are taken as given: [json.loads],
    and [float] and [int] applied to a string.  [None] is a raised
    exception. *)
Variable json_loads : string -> option json.
Variable float_of_str : string -> option float.
Variable int_of_str : string -> option Z.

(** The external model and the clock. *)
Variable E : env.

(** [datetime.now().isoformat()] *)
Definition now : St string :=
  fun w => (isoformat_now E (ticks w), mkWorld (calls w) (S (ticks w))).

(** [self.model.generate_content(prompt)] followed by [response.text] *)
Definition model_text (prompt : string) : Exc string :=
  fun w =>
    let w' := mkWorld (prompt :: calls w) (ticks w) in
    match generate_content E (List.length (calls w)) prompt with
    | Raised => (None, w')
    | Text s => (Some s, w')
    end.

(** [v.get]: only a dictionary has the method. *)
Definition as_dict (v : json) : option (list (string * json)) :=
  match v with JDict d => Some d | _ => None end.

(** [v.lower()]: only a string has the method. *)
Definition str_lower (v : json) : option string :=
  match v with JStr s => Some (PyStr.lower s) | _ => None end.

(** [float(v)] *)
Definition py_float (v : json) : option float :=
  match v with
  | JBool b => Some (if b then 1%float else 0%float)
  | JInt z => PyNum.float_of_int z
  | JFloat f => Some f
  | JStr s => float_of_str s
  | JNull | JList _ | JDict _ => None
  end.

(** [int(v)] *)
Definition py_int (v : json) : option Z :=
  match v with
  | JBool b => Some (Json.int_of_bool b)
  | JInt z => Some z
  | JFloat f => PyNum.int_of_float f
  | JStr s => int_of_str s
  | JNull | JList _ | JDict _ => None
  end.

Definition validate_result (result : json) (original_text : string) : Exc Result :=
  d <- Monad.lift (as_dict result) ;;
  s <- Monad.lift (str_lower (Json.get d "sentiment" (JStr "neutral"))) ;;
  c <- Monad.lift (py_float (Json.get d "confidence" (JFloat 0.5))) ;;
  let e := Json.get d "emotions" (JList [JStr "neutral"]) in
  let k := Json.get d "key_phrases" (JList []) in
  i <- Monad.lift (py_int (Json.get d "intensity" (JInt 5))) ;;
  let t := truncate original_text in
  a <- Monad.total now ;;
  let validated := mkResult s c e k i t a in
  let validated :=
    if negb (in_list (sentiment validated) sentiment_values)
    then set_sentiment validated "neutral" else validated in
  let validated :=
    set_confidence validated
      (PyNum.max_float 0 (PyNum.min_float 1 (confidence validated))) in
  let validated :=
    set_intensity validated
      (PyNum.max_int 1 (PyNum.min_int 10 (intensity validated))) in
  Monad.ret validated.

Definition fallback_analysis (text : string) : St Result :=
  let text_lower := PyStr.lower text in
  let positive_count := count_present positive_words text_lower in
  let negative_count := count_present negative_words text_lower in
  let '(sentiment, confidence) :=
    if (negative_count <? positive_count)%nat then ("positive", 0.6%float)
    else if (positive_count <? negative_count)%nat then ("negative", 0.6%float)
    else ("neutral", 0.5%float) in
  a <~ now ;;
  Monad.sret (mkResult sentiment confidence (JList [JStr "neutral"]) (JList []) 5
                       (truncate text) a).

Definition analyze_single_text (text : string) : St Result :=
  Monad.try_except
    (let prompt := Prompt.single text in
     response_text <- model_text prompt ;;
     let result_text := PyStr.strip response_text in
     match PyStr.search_delimited "{" "}" result_text with
     | Some json_str =>
         result <- Monad.lift (json_loads json_str) ;;
         result <- validate_result result text ;;
         Monad.ret result
     | None => Monad.total (fallback_analysis text)
     end)
    (fallback_analysis text).

(** The loop [for i, result in enumerate(results)] of
    [analyze_batch_gemini], from index [i] on. *)
Fixpoint validate_each (texts : list string) (i : nat) (results : list json)
         (validated_results : list Result) : Exc (list Result) :=
  match results with
  | [] => Monad.ret validated_results
  | result :: rest =>
      if (i <? List.length texts)%nat then
        validated_result <- validate_result result (nth i texts EmptyString) ;;
        validate_each texts (S i) rest (validated_results ++ [validated_result])
      else validate_each texts (S i) rest validated_results
  end.

Definition analyze_batch_gemini (texts : list string) : St (list Result) :=
  Monad.try_except
    (let prompt := Prompt.batch texts in
     response_text <- model_text prompt ;;
     let result_text := PyStr.strip response_text in
     match PyStr.search_delimited "[" "]" result_text with
     | Some json_str =>
         results <- Monad.lift (json_loads json_str) ;;
         items <- Monad.lift (Json.iter results) ;;
         validate_each texts 0 items []
     | None => Monad.total (Monad.smap analyze_single_text texts)
     end)
    (Monad.smap analyze_single_text texts).

(** The loop [for i in range(0, len(texts), batch_size)] of
    [analyze_batch], over the offsets still to visit. *)
Fixpoint batch_loop (texts : list string) (offsets : list nat)
         (results : list Result) : St (list Result) :=
  match offsets with
  | [] => Monad.sret results
  | i :: rest =>
      let batch := slice texts i (i + batch_size) in
      batch_results <~ analyze_batch_gemini batch ;;
      batch_loop texts rest (results ++ batch_results)
  end.

Definition analyze_batch (texts : list string) : St (list Result) :=
  batch_loop texts (range 0 (List.length texts) batch_size) [].

End Analyzer.

(** ** Summary statistics *)

(** A value of the statistics dictionary. *)
Inductive stat : Type :=
| StInt (z : Z)
| StFloat (f : float)
| StPairs (l : list (json * Z)).

Module Dict.

(** [d[key]], [None] when the key is absent. *)
Fixpoint lookup {V} (d : list (string * V)) (key : string) : option V :=
  match d with
  | [] => None
  | (k, v) :: d' => if String.eqb k key then Some v else lookup d' key
  end.

End Dict.

Definition obind {A B} (o : option A) (k : A -> option B) : option B :=
  match o with Some a => k a | None => None end.

Notation "x <-? m ;; k" := (obind m (fun x => k))
  (at level 100, m at next level, right associativity) : exc_scope.

(** [sum(1 for r in results if r["sentiment"] == value)] *)
Definition count_sentiment (value : string) (results : list Result) : Z :=
  Z.of_nat (List.length (filter (fun r => String.eqb (sentiment r) value) results)).

(** [round((count / total) * 100, 1)] *)
Definition percentage (count total : Z) : option float :=
  q <-? PyNum.int_truediv count total ;;
  Some (PyNum.round (q * 100)%float 1).

(** The loop [for r in results: all_emotions.extend(r["emotions"])] *)
Fixpoint extend_all (results : list Result) (all_emotions : list json)
  : option (list json) :=
  match results with
  | [] => Some all_emotions
  | r :: rest =>
      items <-? Json.iter (emotions r) ;;
      extend_all rest (all_emotions ++ items)
  end.

(** [emotion_counts[emotion] = emotion_counts.get(emotion, 0) + 1] on a
    dictionary kept in insertion order. *)
Fixpoint incr (emotion_counts : list (json * Z)) (emotion : json)
  : option (list (json * Z)) :=
  match emotion_counts with
  | [] => if Json.hashable emotion then Some [(emotion, 1%Z)] else None
  | (k, n) :: rest =>
      same <-? Json.key_eqb k emotion ;;
      if same then Some ((k, (n + 1)%Z) :: rest)
      else rest' <-? incr rest emotion ;; Some ((k, n) :: rest')
  end.

(** The loop [for emotion in all_emotions] *)
Fixpoint count_all (all_emotions : list json) (emotion_counts : list (json * Z))
  : option (list (json * Z)) :=
  match all_emotions with
  | [] => Some emotion_counts
  | emotion :: rest =>
      emotion_counts' <-? incr emotion_counts emotion ;;
      count_all rest emotion_counts'
  end.

(** [sorted(items, key=lambda x: x[1], reverse=True)]: the sort is stable,
    items of equal count keep their order. *)
Fixpoint insert_desc {K} (x : K * Z) (sorted : list (K * Z)) : list (K * Z) :=
  match sorted with
  | [] => [x]
  | y :: rest => if (snd x <? snd y)%Z then y :: insert_desc x rest else x :: sorted
  end.

Definition sorted_desc {K} (items : list (K * Z)) : list (K * Z) :=
  fold_right insert_desc [] items.

Section Stats.

(** [sum] over a sequence of floats, starting from the integer 0 (addition
    from left to right; recent interpreters compensate the rounding
    errors). *)
Variable float_sum : list float -> float.

Definition get_summary_stats (results : list Result)
  : option (list (string * stat)) :=
  match results with
  | [] => Some []
  | _ :: _ =>
      let total := Z.of_nat (List.length results) in
      let positive := count_sentiment "positive" results in
      let negative := count_sentiment "negative" results in
      let neutral := count_sentiment "neutral" results in
      total_f <-? PyNum.float_of_int total ;;
      let avg_confidence := (float_sum (map confidence results) / total_f)%float in
      avg_intensity <-?
        PyNum.int_truediv (fold_left Z.add (map intensity results) 0%Z) total ;;
      all_emotions <-? extend_all results [] ;;
      emotion_counts <-? count_all all_emotions [] ;;
      let top_emotions := firstn 5 (sorted_desc emotion_counts) in
      positive_percentage <-? percentage positive total ;;
      negative_percentage <-? percentage negative total ;;
      neutral_percentage <-? percentage neutral total ;;
      Some [ ("total_analyzed", StInt total);
             ("positive_count", StInt positive);
             ("negative_count", StInt negative);
             ("neutral_count", StInt neutral);
             ("positive_percentage", StFloat positive_percentage);
             ("negative_percentage", StFloat negative_percentage);
             ("neutral_percentage", StFloat neutral_percentage);
             ("average_confidence", StFloat (PyNum.round avg_confidence 2));
             ("average_intensity", StFloat (PyNum.round avg_intensity 1));
             ("top_emotions", StPairs top_emotions) ]
  end.

End Stats.

(** [sum] by repeated addition from the integer 0. *)
Definition float_sum_left (xs : list float) : float :=
  fold_left PrimFloat.add xs 0%float.


(** ** A small instance of the runtime, for worked examples

    [json.loads], [int] and [float] on the fragment that the examples below
    use: JSON without string escapes and without fractional or exponent
    parts, and plain decimal integer literals.  [None] stands both for what
    Python rejects and for what lies outside the fragment. *)

Module Basic.

Definition is_ws (c : ascii) : bool :=
  let n := nat_of_ascii c in
  ((n =? 32) || (n =? 9) || (n =? 10) || (n =? 13))%nat.

Fixpoint skip_ws (s : string) : string :=
  match s with
  | String c s' => if is_ws c then skip_ws s' else s
  | EmptyString => EmptyString
  end.

Definition digit_of (c : ascii) : option Z :=
  let n := nat_of_ascii c in
  if ((48 <=? n) && (n <=? 57))%nat then Some (Z.of_nat (n - 48)) else None.

(** The digits at the head of [s]: their value after [acc], how many there
    are, and the rest. *)
Fixpoint digits (s : string) (acc : Z) (n : nat) : Z * nat * string :=
  match s with
  | String c s' =>
      match digit_of c with
      | Some d => digits s' (10 * acc + d)%Z (S n)
      | None => (acc, n, s)
      end
  | EmptyString => (acc, n, s)
  end.

(** A string body up to the closing quote; a backslash or a control
    character ends the fragment. *)
Fixpoint string_body (s : string) : option (string * string) :=
  match s with
  | EmptyString => None
  | String c s' =>
      let n := nat_of_ascii c in
      if (n =? 34)%nat then Some (EmptyString, s')
      else if ((n =? 92) || (n <? 32))%nat then None
      else
        match string_body s' with
        | Some (body, rest) => Some (String c body, rest)
        | None => None
        end
  end.

(** An integer literal (an optional minus sign, then 0 or digits that do
    not start with 0) not followed by a fraction or an exponent. *)
Definition number (s : string) : option (Z * string) :=
  let '(neg, s1) :=
    match s with
    | String "-" s' => (true, s')
    | _ => (false, s)
    end in
  let '(v, n, rest) := digits s1 0%Z 0 in
  let leading_zero :=
    match s1 with String "0" _ => (1 <? n)%nat | _ => false end in
  let continues :=
    match rest with
    | String "." _ | String "e" _ | String "E" _ => true
    | _ => false
    end in
  if (n =? 0)%nat || leading_zero || continues then None
  else Some (if neg then (- v)%Z else v, rest).

(** [d[k] = v] on a dictionary in insertion order. *)
Fixpoint dict_set (d : list (string * json)) (k : string) (v : json)
  : list (string * json) :=
  match d with
  | [] => [(k, v)]
  | (k', v') :: d' =>
      if String.eqb k' k then (k', v) :: d' else (k', v') :: dict_set d' k v
  end.

Definition literal (word : string) (v : json) (s : string) : option (json * string) :=
  if prefix word s
  then Some (v, substring (String.length word) (String.length s - String.length word) s)
  else None.

Fixpoint value (fuel : nat) (s : string) : option (json * string) :=
  match fuel with
  | O => None
  | S fuel' =>
      match skip_ws s with
      | String "[" rest =>
          match skip_ws rest with
          | String "]" rest' => Some (JList [], rest')
          | _ =>
              match elements fuel' rest [] with
              | Some (l, rest') => Some (JList l, rest')
              | None => None
              end
          end
      | String "{" rest =>
          match skip_ws rest with
          | String "}" rest' => Some (JDict [], rest')
          | _ =>
              match members fuel' rest [] with
              | Some (d, rest') => Some (JDict d, rest')
              | None => None
              end
          end
      | String c rest as s' =>
          if (nat_of_ascii c =? 34)%nat then
            match string_body rest with
            | Some (body, rest') => Some (JStr body, rest')
            | None => None
            end
          else if prefix "null" s' then literal "null" JNull s'
          else if prefix "true" s' then literal "true" (JBool true) s'
          else if prefix "false" s' then literal "false" (JBool false) s'
          else
            match number s' with
            | Some (z, rest') => Some (JInt z, rest')
            | None => None
            end
      | EmptyString => None
      end
  end

with elements (fuel : nat) (s : string) (acc : list json)
     : option (list json * string) :=
  match fuel with
  | O => None
  | S fuel' =>
      match value fuel' s with
      | Some (v, rest) =>
          match skip_ws rest with
          | String "," rest' => elements fuel' rest' (acc ++ [v])
          | String "]" rest' => Some (acc ++ [v], rest')
          | _ => None
          end
      | None => None
      end
  end

with members (fuel : nat) (s : string) (acc : list (string * json))
     : option (list (string * json) * string) :=
  match fuel with
  | O => None
  | S fuel' =>
      match skip_ws s with
      | String c rest =>
          if (nat_of_ascii c =? 34)%nat then
            match string_body rest with
            | Some (k, rest1) =>
                match skip_ws rest1 with
                | String ":" rest2 =>
                    match value fuel' rest2 with
                    | Some (v, rest3) =>
                        match skip_ws rest3 with
                        | String "," rest4 => members fuel' rest4 (dict_set acc k v)
                        | String "}" rest4 => Some (dict_set acc k v, rest4)
                        | _ => None
                        end
                    | None => None
                    end
                | _ => None
                end
            | None => None
            end
          else None
      | EmptyString => None
      end
  end.

Definition json_loads (s : string) : option json :=
  match value (2 * String.length s + 2) s with
  | Some (v, rest) =>
      match skip_ws rest with
      | EmptyString => Some v
      | _ => None
      end
  | None => None
  end.

(** [int(s)] for an optional sign followed by decimal digits. *)
Definition int_of_str (s : string) : option Z :=
  let '(neg, s1) :=
    match s with
    | String "-" s' => (true, s')
    | String "+" s' => (false, s')
    | _ => (false, s)
    end in
  match digits s1 0%Z 0 with
  | (v, S _, EmptyString) => Some (if neg then (- v)%Z else v)
  | _ => None
  end.

(** [float(s)] for the same literals. *)
Definition float_of_str (s : string) : option float :=
  match int_of_str s with
  | Some z => PyNum.float_of_int z
  | None => None
  end.

End Basic.


(** ** Vocabulary of the properties *)






(** The domains of the three scalar fields. *)
Definition in_unit_interval (c : float) : bool :=
  PrimFloat.leb 0 c && PrimFloat.leb c 1.

Definition scalars_in_domain (r : Result) : bool :=
  in_list (sentiment r) sentiment_values
  && in_unit_interval (confidence r)
  && ((1 <=? intensity r) && (intensity r <=? 10))%Z.

(** The domains of the two list fields. *)
Definition nonempty_str_list (v : json) : bool :=
  match v with
  | JList (x :: l) => forallb Json.is_str (x :: l)
  | _ => false
  end.

Definition lists_in_domain (r : Result) : bool :=
  nonempty_str_list (emotions r) && Json.is_str_list (key_phrases r).

Definition well_formed (r : Result) : bool :=
  scalars_in_domain r && lists_in_domain r.



(** The label of the fallback classifier as a function of the two counts. *)
Definition label_of_counts (positive_count negative_count : nat) : string * float :=
  if (negative_count <? positive_count)%nat then ("positive", 0.6%float)
  else if (positive_count <? negative_count)%nat then ("negative", 0.6%float)
  else ("neutral", 0.5%float).

(** The fallback classifier in the specification's words: the occurrences
    of the listed words in the text, case-insensitively, are counted. *)
Definition count_occurrences (words : list string) (text : string) : nat :=
  fold_right (fun word n => (PyStr.occurrences word (PyStr.lower text) + n)%nat) 0%nat words.

Definition label_by_occurrences (text : string) : string * float :=
  label_of_counts (count_occurrences positive_words text)
                  (count_occurrences negative_words text).

(** The same label from the counts the code takes: how many of the listed
    words occur at least once. *)
Definition label_by_presence (text : string) : string * float :=
  label_of_counts (count_present positive_words (PyStr.lower text))
                  (count_present negative_words (PyStr.lower text)).

(** The emotion ranking of [get_summary_stats] on its own: the lines from
    [all_emotions = []] to the slice [[:5]]. *)
Definition top_emotions_of (results : list Result) : option (list (json * Z)) :=
  all_emotions <-? extend_all results [] ;;
  emotion_counts <-? count_all all_emotions [] ;;
  Some (firstn 5 (sorted_desc emotion_counts)).

Definition str_of (v : json) : string :=
  match v with JStr s => s | _ => EmptyString end.

Definition items_of (v : json) : list json :=
  match v with JList l => l | _ => [] end.

(** Every emotion of every result, in order, for results whose [emotions]
    are lists of strings. *)
Definition emotion_names (results : list Result) : list string :=
  List.concat (map (fun r => map str_of (items_of (emotions r))) results).

(** An entry of the ranking as the dictionary item it stands for. *)
Definition tag (entry : string * Z) : json * Z := (JStr (fst entry), snd entry).

(** Position of the first occurrence of [e] in [names]. *)
Fixpoint index_of (e : string) (names : list string) : nat :=
  match names with
  | [] => O
  | x :: rest => if String.eqb x e then O else S (index_of e rest)
  end.

(** The order that a stable descending sort by count produces from a list
    ordered by [position]: a larger count, or the same count and an earlier
    position. *)
Definition before {K} (position : K -> nat) (a b : K * Z) : Prop :=
  (snd b < snd a)%Z
  \/ (snd a = snd b /\ (position (fst a) < position (fst b))%nat).

(** [a] is ranked before [b]: a larger count, or the same count and an
    earlier first occurrence among [names]. *)
Definition ranks_before (names : list string) : string * Z -> string * Z -> Prop :=
  before (fun e => index_of e names).

(** The counting loop on string keys. *)
Fixpoint incr_name (counts : list (string * Z)) (e : string) : list (string * Z) :=
  match counts with
  | [] => [(e, 1%Z)]
  | (k, n) :: rest =>
      if String.eqb k e then (k, (n + 1)%Z) :: rest else (k, n) :: incr_name rest e
  end.

Definition count_names (names : list string) (counts : list (string * Z))
  : list (string * Z) :=
  fold_left incr_name names counts.

(** The count recorded for [e], 0 when [e] is not a key. *)
Fixpoint count_of (counts : list (string * Z)) (e : string) : Z :=
  match counts with
  | [] => 0%Z
  | (k, n) :: rest => if String.eqb k e then n else count_of rest e
  end.

(** Number of occurrences of [e] among [names]. *)
Definition occurrences_among (names : list string) (e : string) : Z :=
  Z.of_nat (count_occ string_dec names e).

(** What the counting loop has established after the prefix [p] of [names]:
    one key per distinct emotion of [p], in the order of first occurrence,
    each with its number of occurrences in [p]. *)
Definition counted (names p : list string) (counts : list (string * Z)) : Prop :=
  NoDup (map fst counts)
  /\ (forall e, In e (map fst counts) <-> In e p)
  /\ (forall e, count_of counts e = occurrences_among p e)
  /\ StronglySorted (fun a b => (index_of a names < index_of b names)%nat)
                    (map fst counts).

(** ** Environments of the worked examples *)

Module Examples.

Definition clock (n : nat) : string := "2024-05-01T12:00:00.000000".

(** The model is unreachable. *)
Definition env_down : env := mkEnv (fun _ _ => Raised) clock.





Definition analyze_batch := analyze_batch Basic.json_loads Basic.float_of_str Basic.int_of_str.
Definition analyze_batch_gemini := analyze_batch_gemini Basic.json_loads Basic.float_of_str Basic.int_of_str.
Definition analyze_single_text := analyze_single_text Basic.json_loads Basic.float_of_str Basic.int_of_str.
Definition validate_result := validate_result Basic.float_of_str Basic.int_of_str.

Definition with_emotions (s : string) (es : list string) : Result :=
  mkResult s 0.9 (JList (map JStr es)) (JList []) 7 "text" (clock 0).

Definition three_results : list Result :=
  [ with_emotions "positive" ["joy"; "happy"];
    with_emotions "negative" ["sad"; "happy"; "angry"];
    with_emotions "neutral" ["sad"; "calm"; "bored"; "tired"; "joy"] ].

End Examples.


(** The binary64 value nearest to [k / 10]. *)
Definition tenth (k : Z) : float :=
  SF2Prim (SFdiv prec emax (PyNum.SF_of_Z k) (PyNum.SF_of_Z 10)).

(** The distance from 100 of the sum of three percentages, added from left
    to right in binary64 as Python adds them. *)
Definition off_hundred (p1 p2 p3 : float) : float := abs (p1 + p2 + p3 - 100)%float.

(** The sum is within 0.1 of 100.0. *)
Definition within_tenth (p1 p2 p3 : float) : bool :=
  PrimFloat.leb (off_hundred p1 p2 p3) 0.1.

(** The sum is within 0.1 of 100.0 up to a rounding error of [1e-14]. *)
Definition tolerance : float := 0.10000000000001%float.

Definition nearly_within_tenth (p1 p2 p3 : float) : bool :=
  PrimFloat.leb (off_hundred p1 p2 p3) tolerance.

(** The integers from 0 to 1000. *)
Definition range1001 : list Z := map Z.of_nat (seq 0 1001).

(** The values [tenth 0], ..., [tenth 1000], tabulated. *)
Definition tenth_table : PositiveMap.t float :=
  fold_left (fun t k => PositiveMap.add (Z.to_pos (k + 1)) (tenth k) t)
            range1001 (PositiveMap.empty float).

Definition tenth_lookup (t : PositiveMap.t float) (k : Z) : float :=
  match PositiveMap.find (Z.to_pos (k + 1)) t with
  | Some p => p
  | None => tenth k
  end.

Definition table_agrees (t : PositiveMap.t float) : bool :=
  forallb (fun k => PrimFloat.Leibniz.eqb (tenth_lookup t k) (tenth k)) range1001.

(** Every triple of tenths between 0 and 1000 whose sum is 999, 1000 or 1001
    gives percentages that are nearly within a tenth of 100. *)
Definition triples_ok (tenth_of : Z -> float) : bool :=
  forallb
    (fun k1 =>
       forallb
         (fun k2 =>
            forallb
              (fun d =>
                 let k3 := (1000 + d - k1 - k2)%Z in
                 if ((0 <=? k3) && (k3 <=? 1000))%Z
                 then nearly_within_tenth (tenth_of k1) (tenth_of k2) (tenth_of k3)
                 else true)
              [(-1)%Z; 0%Z; 1%Z])
         range1001)
    range1001.

(** * Properties *)

(** ** The monads and the loops *)

Section DriverFacts.

Variable json_loads : string -> option json.
Variable float_of_str : string -> option float.
Variable int_of_str : string -> option Z.
Variable E : env.

Local Abbreviation validate_result' := (validate_result float_of_str int_of_str E).
Local Abbreviation analyze_single_text' := (analyze_single_text json_loads float_of_str int_of_str E).
Local Abbreviation analyze_batch_gemini' := (analyze_batch_gemini json_loads float_of_str int_of_str E).
Local Abbreviation analyze_batch' := (analyze_batch json_loads float_of_str int_of_str E).
Local Abbreviation validate_each' := (validate_each float_of_str int_of_str E).
Local Abbreviation batch_loop' := (batch_loop json_loads float_of_str int_of_str E).

Lemma smap_length {A B} (f : A -> St B) (xs : list A) (w : world) :
  List.length (fst (Monad.smap f xs w)) = List.length xs.
Proof.
  revert w; induction xs as [|x xs IH]; intro w; cbn; [reflexivity|].
  unfold Monad.sbind. destruct (f x w) as [y w1].
  specialize (IH w1). destruct (Monad.smap f xs w1) as [ys w2].
  cbn in *. now rewrite IH.
Qed.

Lemma validate_each_length texts items :
  forall i acc w out w',
    validate_each' texts i items acc w = (Some out, w') ->
    List.length out
    = (List.length acc + Nat.min (List.length items) (List.length texts - i))%nat.
Proof.
  induction items as [|item items IH]; intros i acc w out w' H; cbn [validate_each] in H.
  - unfold Monad.ret in H. inversion H; subst. cbn. lia.
  - destruct (i <? List.length texts)%nat eqn:Hi.
    + apply Nat.ltb_lt in Hi. unfold Monad.bind in H.
      destruct (validate_result' item (nth i texts EmptyString) w) as [[r|] w1];
        [|discriminate].
      apply IH in H. rewrite H, length_app. cbn [List.length]. lia.
    + apply Nat.ltb_ge in Hi. apply IH in H. rewrite H. cbn [List.length]. lia.
Qed.


Lemma try_except_some {A} (body : Exc A) (handler : St A) w a w1 :
  body w = (Some a, w1) -> Monad.try_except body handler w = (a, w1).
Proof. intro H. unfold Monad.try_except. now rewrite H. Qed.

Lemma try_except_none {A} (body : Exc A) (handler : St A) w w1 :
  body w = (None, w1) -> Monad.try_except body handler w = handler w1.
Proof. intro H. unfold Monad.try_except. now rewrite H. Qed.

(** C9: whatever the model answers, a chunk never yields more results than
    it has texts: surplus entries of the decoded array are skipped, and
    the two fallback paths give one result per text. *)
Theorem analyze_batch_gemini_at_most_one_per_text (texts : list string) (w : world) :
  (List.length (fst (analyze_batch_gemini' texts w)) <= List.length texts)%nat.
Proof.
  unfold analyze_batch_gemini, Monad.try_except, Monad.bind, model_text.
  set (w1 := mkWorld _ _).
  pose proof (smap_length analyze_single_text' texts w1) as Hall.
  destruct (generate_content E _ _) as [|s]; [now rewrite Hall|].
  destruct (PyStr.search_delimited _ _ _) as [json_str|].
  - unfold Monad.lift.
    destruct (json_loads json_str) as [results|]; [|now rewrite Hall].
    destruct (Json.iter results) as [items|]; [|now rewrite Hall].
    destruct (validate_each' texts 0 items [] w1) as [[out|] w2] eqn:Hv.
    + apply validate_each_length in Hv. cbn [fst List.length] in *. lia.
    + pose proof (smap_length analyze_single_text' texts w2) as Hall2.
      now rewrite Hall2.
  - unfold Monad.total.
    destruct (Monad.smap analyze_single_text' texts w1) as [out w2].
    cbn [fst] in *. now rewrite Hall.
Qed.

Lemma batch_loop_nil (texts : list string) (results : list Result) (w : world) :
  batch_loop' texts [] results w = (results, w).
Proof. reflexivity. Qed.

(** C10: on the empty list [analyze_batch] returns the empty list and leaves
    the world as it found it: no prompt is sent and the clock is not
    read. *)
Theorem analyze_batch_empty_input (w : world) :
  analyze_batch' [] w = ([], w).
Proof. reflexivity. Qed.


(** What a successful [validate_result] has done. *)
Lemma validate_result_inv result text w r w' :
  validate_result' result text w = (Some r, w') ->
  exists d s c i,
    result = JDict d
    /\ str_lower (Json.get d "sentiment" (JStr "neutral")) = Some s
    /\ py_float float_of_str (Json.get d "confidence" (JFloat 0.5)) = Some c
    /\ py_int int_of_str (Json.get d "intensity" (JInt 5)) = Some i
    /\ w' = mkWorld (calls w) (S (ticks w))
    /\ r = mkResult (if in_list s sentiment_values then s else "neutral")
                    (PyNum.max_float 0 (PyNum.min_float 1 c))
                    (Json.get d "emotions" (JList [JStr "neutral"]))
                    (Json.get d "key_phrases" (JList []))
                    (PyNum.max_int 1 (PyNum.min_int 10 i))
                    (truncate text)
                    (isoformat_now E (ticks w)).
Proof.
  unfold validate_result, Monad.bind, Monad.lift, Monad.total, Monad.ret, now.
  intro H.
  destruct result as [| | | | |l|d]; cbn [as_dict] in H; try discriminate.
  destruct (str_lower _) as [s|] eqn:Hs; [|discriminate].
  destruct (py_float _ _) as [c|] eqn:Hc; [|discriminate].
  destruct (py_int _ _) as [i|] eqn:Hi; [|discriminate].
  exists d, s, c, i. repeat split; try assumption; try congruence.
  cbn [sentiment] in H.
  destruct (in_list s sentiment_values); cbn [negb] in H; inversion H; reflexivity.
Qed.













(** *** Calls of the model *)










(** *** Domains of the fields *)

Lemma ltb_leb (x y : float) : PrimFloat.ltb x y = true -> PrimFloat.leb x y = true.
Proof.
  rewrite ltb_spec, leb_spec. unfold SFltb, SFleb.
  destruct (SFcompare (Prim2SF x) (Prim2SF y)) as [[| |]|]; congruence.
Qed.

(** [max(0.0, min(1.0, c))] lies in the unit interval for every [c], a NaN
    and the infinities included. *)
Lemma clamp_confidence (c : float) :
  in_unit_interval (PyNum.max_float 0 (PyNum.min_float 1 c)) = true.
Proof.
  unfold in_unit_interval, PyNum.max_float, PyNum.min_float.
  destruct (PrimFloat.ltb c 1) eqn:H1.
  - destruct (PrimFloat.ltb 0 c) eqn:H0.
    + now rewrite (ltb_leb _ _ H0), (ltb_leb _ _ H1).
    + reflexivity.
  - reflexivity.
Qed.

Lemma clamp_intensity (i : Z) :
  (1 <= PyNum.max_int 1 (PyNum.min_int 10 i) <= 10)%Z.
Proof.
  unfold PyNum.max_int, PyNum.min_int.
  destruct (i <? 10)%Z eqn:H10.
  - apply Z.ltb_lt in H10. destruct (1 <? i)%Z eqn:H1; [apply Z.ltb_lt in H1|]; lia.
  - cbn. lia.
Qed.

Lemma normalised_sentiment (s : string) :
  in_list (if in_list s sentiment_values then s else "neutral") sentiment_values = true.
Proof. destruct (in_list s sentiment_values) eqn:H; [exact H|reflexivity]. Qed.

Lemma validate_result_scalars result text w r w' :
  validate_result' result text w = (Some r, w') -> scalars_in_domain r = true.
Proof.
  intro H. apply validate_result_inv in H.
  destruct H as (d & s & c & i & _ & _ & _ & _ & _ & ->).
  unfold scalars_in_domain. cbn [sentiment confidence intensity].
  rewrite normalised_sentiment, clamp_confidence.
  pose proof (clamp_intensity i) as [Hlo Hhi].
  apply Z.leb_le in Hlo, Hhi. now rewrite Hlo, Hhi.
Qed.

Lemma fallback_well_formed text w :
  well_formed (fst (fallback_analysis E text w)) = true.
Proof.
  unfold fallback_analysis, Monad.sbind, Monad.sret, now.
  destruct (_ <? _)%nat; [reflexivity|]. destruct (_ <? _)%nat; reflexivity.
Qed.

Lemma well_formed_scalars r : well_formed r = true -> scalars_in_domain r = true.
Proof. unfold well_formed. intro H. now apply andb_prop in H. Qed.

Lemma analyze_single_text_scalars text w :
  scalars_in_domain (fst (analyze_single_text' text w)) = true.
Proof.
  unfold analyze_single_text, Monad.try_except, Monad.bind, model_text.
  set (w1 := mkWorld _ _).
  assert (Hf : forall w0, scalars_in_domain (fst (fallback_analysis E text w0)) = true)
    by (intro w0; apply well_formed_scalars, fallback_well_formed).
  destruct (generate_content E _ _) as [|s]; [apply Hf|].
  destruct (PyStr.search_delimited _ _ _) as [json_str|].
  - unfold Monad.lift.
    destruct (json_loads json_str) as [result|]; [|apply Hf].
    destruct (validate_result' result text w1) as [[r|] w2] eqn:Hv; [|apply Hf].
    unfold Monad.ret. cbn [fst]. eapply validate_result_scalars; eassumption.
  - unfold Monad.total. specialize (Hf w1).
    destruct (fallback_analysis E text w1) as [r w2]. exact Hf.
Qed.

Lemma smap_single_scalars texts :
  forall w,
    Forall (fun r => scalars_in_domain r = true)
           (fst (Monad.smap analyze_single_text' texts w)).
Proof.
  induction texts as [|t texts IH]; intro w; cbn [Monad.smap].
  - constructor.
  - unfold Monad.sbind, Monad.sret.
    pose proof (analyze_single_text_scalars t w) as Ht.
    destruct (analyze_single_text' t w) as [r w1].
    specialize (IH w1). destruct (Monad.smap analyze_single_text' texts w1) as [rs w2].
    cbn [fst] in *. now constructor.
Qed.

Lemma validate_each_scalars texts items :
  forall i acc w out w',
    Forall (fun r => scalars_in_domain r = true) acc ->
    validate_each' texts i items acc w = (Some out, w') ->
    Forall (fun r => scalars_in_domain r = true) out.
Proof.
  induction items as [|item items IH]; intros i acc w out w' Hacc H;
    cbn [validate_each] in H.
  - unfold Monad.ret in H. now inversion H; subst.
  - destruct (i <? List.length texts)%nat.
    + unfold Monad.bind in H.
      destruct (validate_result' item (nth i texts EmptyString) w) as [[r|] w1] eqn:Hr;
        [|discriminate].
      eapply IH; [|exact H]. apply Forall_app. split; [assumption|].
      constructor; [|constructor]. eapply validate_result_scalars; eassumption.
    + eapply IH; eassumption.
Qed.

Lemma analyze_batch_gemini_scalars texts w :
  Forall (fun r => scalars_in_domain r = true) (fst (analyze_batch_gemini' texts w)).
Proof.
  unfold analyze_batch_gemini, Monad.try_except, Monad.bind, model_text.
  set (w1 := mkWorld _ _).
  destruct (generate_content E _ _) as [|s]; [apply smap_single_scalars|].
  destruct (PyStr.search_delimited _ _ _) as [json_str|].
  - unfold Monad.lift.
    destruct (json_loads json_str) as [results|]; [|apply smap_single_scalars].
    destruct (Json.iter results) as [items|]; [|apply smap_single_scalars].
    destruct (validate_each' texts 0 items [] w1) as [[out|] w2] eqn:Hv;
      [|apply smap_single_scalars].
    cbn [fst]. eapply validate_each_scalars; [|exact Hv]. constructor.
  - unfold Monad.total.
    pose proof (smap_single_scalars texts w1) as Hall.
    destruct (Monad.smap analyze_single_text' texts w1) as [out w2]. exact Hall.
Qed.

Lemma batch_loop_scalars texts offsets :
  forall results w,
    Forall (fun r => scalars_in_domain r = true) results ->
    Forall (fun r => scalars_in_domain r = true)
           (fst (batch_loop' texts offsets results w)).
Proof.
  induction offsets as [|i offsets IH]; intros results w Hres; cbn [batch_loop].
  - exact Hres.
  - unfold Monad.sbind.
    pose proof (analyze_batch_gemini_scalars (slice texts i (i + batch_size)) w) as Hc.
    destruct (analyze_batch_gemini' (slice texts i (i + batch_size)) w) as [rs w1].
    apply IH. apply Forall_app. now split.
Qed.

(** C3, as the code has it: on every path the three scalar fields are in
    their domains: the sentiment is one of the three values, the
    confidence lies in the unit interval, the intensity between 1 and 10.
    A fallback result also has its two lists in their domains.  A validated
    result carries the record's [emotions] and [key_phrases] as they are
    (the defaults when absent), whatever their type. *)
Theorem results_respect_scalar_domains :
  (forall d text w r w',
      validate_result' (JDict d) text w = (Some r, w') ->
      scalars_in_domain r = true
      /\ emotions r = Json.get d "emotions" (JList [JStr "neutral"])
      /\ key_phrases r = Json.get d "key_phrases" (JList []))
  /\ (forall text w, well_formed (fst (fallback_analysis E text w)) = true)
  /\ (forall text w, scalars_in_domain (fst (analyze_single_text' text w)) = true)
  /\ (forall texts w,
        Forall (fun r => scalars_in_domain r = true) (fst (analyze_batch' texts w))).
Proof.
  split; [|split; [|split]].
  - intros d text w r w' H. split; [eapply validate_result_scalars; eassumption|].
    apply validate_result_inv in H.
    destruct H as (d' & s & c & i & Hd & _ & _ & _ & _ & ->).
    inversion Hd; subst. split; reflexivity.
  - apply fallback_well_formed.
  - apply analyze_single_text_scalars.
  - intros texts w. unfold analyze_batch. apply batch_loop_scalars. constructor.
Qed.


(** *** The validator *)





(** *** The fallback classifier *)

Lemma contains_occurrences (word s : string) :
  PyStr.contains word s = (0 <? PyStr.occurrences word s)%nat.
Proof.
  induction s as [|c s IH]; cbn [PyStr.contains PyStr.occurrences].
  - destruct (prefix word EmptyString); reflexivity.
  - rewrite IH. destruct (prefix word (String c s)); cbn [orb]; [reflexivity|].
    reflexivity.
Qed.

Lemma count_present_occurrences (words : list string) (s : string) :
  count_present words s
  = List.length (filter (fun word => (0 <? PyStr.occurrences word s)%nat) words).
Proof.
  unfold count_present. f_equal. apply filter_ext.
  intro word. apply contains_occurrences.
Qed.

Lemma single_occurrences_agree (words : list string) (text : string) :
  (forall word, In word words -> (PyStr.occurrences word (PyStr.lower text) <= 1)%nat) ->
  count_occurrences words text = count_present words (PyStr.lower text).
Proof.
  unfold count_occurrences, count_present.
  induction words as [|word words IH]; intro Hone; cbn [fold_right filter]; [reflexivity|].
  rewrite IH by (intros x Hx; apply Hone; now right).
  rewrite contains_occurrences.
  specialize (Hone word (or_introl eq_refl)).
  destruct (PyStr.occurrences word (PyStr.lower text)) as [|[|n]]; cbn; lia.
Qed.

(** C5, as the code has it: whatever the world, the fallback result is
    labelled from the text alone, by how many words of each list occur at
    least once in the lower-cased text (as substrings): positive with 0.6
    when more positive words occur, negative with 0.6 when more negative
    words do, neutral with 0.5 otherwise; emotions, key phrases and
    intensity are the constants.  The label is the one that counting every
    occurrence would give whenever no listed word occurs twice. *)
Theorem fallback_analysis_counts_present_words (text : string) (w : world) :
  let r := fst (fallback_analysis E text w) in
  (sentiment r, confidence r) = label_by_presence text
  /\ emotions r = JList [JStr "neutral"]
  /\ key_phrases r = JList []
  /\ intensity r = 5%Z
  /\ (forall words,
        count_present words (PyStr.lower text)
        = List.length
            (filter (fun word => (0 <? PyStr.occurrences word (PyStr.lower text))%nat)
                    words))
  /\ ((forall word, In word (positive_words ++ negative_words) ->
                    (PyStr.occurrences word (PyStr.lower text) <= 1)%nat) ->
      label_by_presence text = label_by_occurrences text).
Proof.
  cbn zeta. split.
  - unfold fallback_analysis, label_by_presence, label_of_counts,
      Monad.sbind, Monad.sret, now.
    destruct (_ <? _)%nat; [reflexivity|]. destruct (_ <? _)%nat; reflexivity.
  - split; [|split; [|split; [|split]]].
    + unfold fallback_analysis, Monad.sbind, Monad.sret, now.
      destruct (_ <? _)%nat; [reflexivity|]. destruct (_ <? _)%nat; reflexivity.
    + unfold fallback_analysis, Monad.sbind, Monad.sret, now.
      destruct (_ <? _)%nat; [reflexivity|]. destruct (_ <? _)%nat; reflexivity.
    + unfold fallback_analysis, Monad.sbind, Monad.sret, now.
      destruct (_ <? _)%nat; [reflexivity|]. destruct (_ <? _)%nat; reflexivity.
    + intro words. apply count_present_occurrences.
    + intro Hone. unfold label_by_presence, label_by_occurrences.
      rewrite !single_occurrences_agree; [reflexivity| |];
        intros word Hin; apply Hone, in_or_app; [now right|now left].
Qed.

End DriverFacts.

(** ** The emotion ranking *)

Section SortFacts.

Context {K : Type}.

Lemma insert_desc_perm (x : K * Z) (l : list (K * Z)) :
  Permutation (x :: l) (insert_desc x l).
Proof.
  induction l as [|y l IH]; cbn [insert_desc]; [reflexivity|].
  destruct (snd x <? snd y)%Z; [|reflexivity].
  rewrite perm_swap. now constructor.
Qed.

Lemma sorted_desc_perm (l : list (K * Z)) : Permutation l (sorted_desc l).
Proof.
  induction l as [|x l IH]; cbn [sorted_desc fold_right]; [reflexivity|].
  rewrite <- insert_desc_perm. now constructor.
Qed.

Variable position : K -> nat.

Lemma before_count (a b : K * Z) : before position a b -> (snd b <= snd a)%Z.
Proof. intros [H|[H _]]; lia. Qed.

Lemma insert_desc_sorted (x : K * Z) (l : list (K * Z)) :
  StronglySorted (before position) l ->
  Forall (fun y => (position (fst x) < position (fst y))%nat) l ->
  StronglySorted (before position) (insert_desc x l).
Proof.
  induction l as [|y l IH]; intros Hs Hx; cbn [insert_desc].
  - repeat constructor.
  - apply StronglySorted_inv in Hs. destruct Hs as [Hs Hy].
    apply Forall_cons_iff in Hx. destruct Hx as [Hxy Hx].
    destruct (snd x <? snd y)%Z eqn:Hlt.
    + apply Z.ltb_lt in Hlt. constructor; [now apply IH|].
      eapply Permutation_Forall; [apply insert_desc_perm|].
      constructor; [now left|assumption].
    + apply Z.ltb_ge in Hlt. constructor; [now constructor|].
      assert (Hall : Forall (fun z => (snd z <= snd x)%Z) (y :: l)).
      { constructor; [assumption|].
        eapply Forall_impl; [|exact Hy].
        intros z Hz. apply before_count in Hz. cbn beta. lia. }
      assert (Hpos : Forall (fun z => (position (fst x) < position (fst z))%nat) (y :: l))
        by now constructor.
      clear - Hall Hpos. induction Hall as [|z zs Hz Hzs IHz]; constructor.
      * apply Forall_cons_iff in Hpos. destruct Hpos as [Hp _].
        destruct (Z.eq_dec (snd z) (snd x)) as [Heq|Hne];
          [right; split; [now symmetry|assumption]|left; lia].
      * apply IHz. now apply Forall_cons_iff in Hpos.
Qed.

Lemma sorted_desc_sorted (l : list (K * Z)) :
  StronglySorted (fun a b => (position (fst a) < position (fst b))%nat) l ->
  StronglySorted (before position) (sorted_desc l).
Proof.
  induction l as [|x l IH]; intro Hs; cbn [sorted_desc fold_right]; [constructor|].
  apply StronglySorted_inv in Hs. destruct Hs as [Hs Hx].
  apply insert_desc_sorted; [now apply IH|].
  eapply Permutation_Forall; [apply sorted_desc_perm|exact Hx].
Qed.

End SortFacts.

Section CountFacts.

Lemma index_of_app_in (e : string) (p q : list string) :
  In e p -> index_of e (p ++ q) = index_of e p.
Proof.
  induction p as [|x p IH]; intro Hin; [contradiction|].
  cbn [app index_of]. destruct (String.eqb x e) eqn:Hx; [reflexivity|].
  destruct Hin as [->|Hin]; [now rewrite String.eqb_refl in Hx|].
  now rewrite IH.
Qed.

Lemma index_of_in_lt (e : string) (p : list string) :
  In e p -> (index_of e p < List.length p)%nat.
Proof.
  induction p as [|x p IH]; intro Hin; [contradiction|].
  cbn [index_of List.length]. destruct (String.eqb x e) eqn:Hx; [lia|].
  destruct Hin as [->|Hin]; [now rewrite String.eqb_refl in Hx|].
  specialize (IH Hin). lia.
Qed.

Lemma index_of_app_notin (e : string) (p q : list string) :
  ~ In e p -> index_of e (p ++ q) = (List.length p + index_of e q)%nat.
Proof.
  induction p as [|x p IH]; intro Hnot; [reflexivity|].
  cbn [app index_of List.length]. destruct (String.eqb x e) eqn:Hx.
  - apply String.eqb_eq in Hx. subst. exfalso. apply Hnot. now left.
  - rewrite IH; [lia|]. intro Hin. apply Hnot. now right.
Qed.

Lemma incr_name_known (counts : list (string * Z)) (e : string) :
  In e (map fst counts) -> map fst (incr_name counts e) = map fst counts.
Proof.
  induction counts as [|[k n] counts IH]; intro Hin; [contradiction|].
  cbn [incr_name]. destruct (String.eqb k e) eqn:Hk; [reflexivity|].
  cbn [map fst]. f_equal. apply IH.
  destruct Hin as [Hin|Hin]; [|assumption].
  cbn [fst] in Hin. subst. now rewrite String.eqb_refl in Hk.
Qed.

Lemma incr_name_new (counts : list (string * Z)) (e : string) :
  ~ In e (map fst counts) -> incr_name counts e = counts ++ [(e, 1%Z)].
Proof.
  induction counts as [|[k n] counts IH]; intro Hnot; [reflexivity|].
  cbn [incr_name]. destruct (String.eqb k e) eqn:Hk.
  - apply String.eqb_eq in Hk. subst. exfalso. apply Hnot. now left.
  - cbn [app]. f_equal. apply IH. intro Hin. apply Hnot. now right.
Qed.

Lemma count_of_absent (counts : list (string * Z)) (e : string) :
  ~ In e (map fst counts) -> count_of counts e = 0%Z.
Proof.
  induction counts as [|[k n] counts IH]; intro Hnot; [reflexivity|].
  cbn [count_of]. destruct (String.eqb k e) eqn:Hk.
  - apply String.eqb_eq in Hk. subst. exfalso. apply Hnot. now left.
  - apply IH. intro Hin. apply Hnot. now right.
Qed.

Lemma count_of_entry (counts : list (string * Z)) (e : string) (c : Z) :
  NoDup (map fst counts) -> In (e, c) counts -> count_of counts e = c.
Proof.
  induction counts as [|[k n] counts IH]; intros Hnd Hin; [contradiction|].
  cbn [map fst] in Hnd. apply NoDup_cons_iff in Hnd. destruct Hnd as [Hk Hnd].
  cbn [count_of]. destruct Hin as [Heq|Hin].
  - inversion Heq; subst. now rewrite String.eqb_refl.
  - destruct (String.eqb k e) eqn:Hke.
    + apply String.eqb_eq in Hke. subst. exfalso. apply Hk.
      change e with (fst (e, c)). now apply in_map.
    + now apply IH.
Qed.

(** One step of the counting loop adds one to the count of its emotion and
    leaves the other counts alone. *)
Lemma count_of_incr_name (counts : list (string * Z)) (x e : string) :
  count_of (incr_name counts x) e
  = (count_of counts e + if String.eqb x e then 1 else 0)%Z.
Proof.
  induction counts as [|[k n] counts IH]; cbn [incr_name count_of].
  - destruct (String.eqb x e); reflexivity.
  - destruct (String.eqb k x) eqn:Hkx; cbn [count_of].
    + apply String.eqb_eq in Hkx. subst k.
      destruct (String.eqb x e); lia.
    + destruct (String.eqb k e) eqn:Hke; [|exact IH].
      apply String.eqb_eq in Hke. subst k. rewrite String.eqb_sym, Hkx. lia.
Qed.

Lemma occurrences_among_snoc (p : list string) (x e : string) :
  occurrences_among (p ++ [x]) e
  = (occurrences_among p e + if String.eqb x e then 1 else 0)%Z.
Proof.
  unfold occurrences_among. rewrite count_occ_app. cbn [count_occ].
  destruct (string_dec x e) as [->|Hne].
  - rewrite String.eqb_refl. lia.
  - apply String.eqb_neq in Hne. rewrite Hne. lia.
Qed.

Lemma sorted_snoc {A} (R : A -> A -> Prop) (l : list A) (x : A) :
  StronglySorted R l -> Forall (fun y => R y x) l -> StronglySorted R (l ++ [x]).
Proof.
  induction l as [|y l IH]; intros Hs Hx; cbn [app]; [repeat constructor|].
  apply StronglySorted_inv in Hs. destruct Hs as [Hs Hy].
  apply Forall_cons_iff in Hx. destruct Hx as [Hyx Hx].
  constructor; [now apply IH|]. apply Forall_app. split; [assumption|].
  now constructor.
Qed.

Variable names : list string.

Lemma counted_step (p rest : list string) (x : string) (counts : list (string * Z)) :
  names = p ++ x :: rest ->
  counted names p counts -> counted names (p ++ [x]) (incr_name counts x).
Proof.
  intros Hnames (Hnd & Hkeys & Hcount & Hsorted).
  assert (Hc : forall e, count_of (incr_name counts x) e
                         = occurrences_among (p ++ [x]) e)
    by (intro e; now rewrite count_of_incr_name, occurrences_among_snoc, Hcount).
  destruct (in_dec string_dec x (map fst counts)) as [Hin|Hnot].
  - unfold counted. rewrite (incr_name_known _ _ Hin).
    split; [|split; [|split]]; try assumption.
    intro e. split; intro He.
    + apply in_or_app. left. now apply Hkeys.
    + apply in_app_or in He. destruct He as [He|[<-|[]]];
        [now apply Hkeys|assumption].
  - unfold counted. rewrite (incr_name_new _ _ Hnot) in Hc |- *.
    rewrite map_app. cbn [map fst].
    split; [|split; [|split]]; try assumption.
    + apply NoDup_app; [assumption|repeat constructor; intros []|].
      intros a Ha [<-|[]]. now apply Hnot.
    + intro e. split; intro He; apply in_app_or in He; apply in_or_app;
        (destruct He as [He|He]; [left; now apply Hkeys|now right]).
    + apply (sorted_snoc _ _ _ Hsorted).
      apply Forall_forall. intros y Hy. apply Hkeys in Hy.
      assert (Hx : ~ In x p) by (intro Hx; apply Hnot; now apply Hkeys).
      rewrite Hnames, (index_of_app_in y p _ Hy), (index_of_app_notin x p _ Hx).
      pose proof (index_of_in_lt y p Hy). lia.
Qed.

Lemma counted_loop (rest : list string) :
  forall p counts,
    names = p ++ rest ->
    counted names p counts -> counted names names (count_names rest counts).
Proof.
  unfold count_names.
  induction rest as [|x rest IH]; intros p counts Hnames Hc; cbn [fold_left].
  - rewrite app_nil_r in Hnames. now subst p.
  - apply (IH (p ++ [x])).
    + now rewrite <- app_assoc.
    + eapply counted_step; eassumption.
Qed.

Lemma counted_all : counted names names (count_names names []).
Proof.
  apply (counted_loop names []); [reflexivity|].
  repeat split; try constructor; try contradiction.
Qed.

End CountFacts.

Section RankingFacts.

Lemma incr_tag (counts : list (string * Z)) (e : string) :
  incr (map tag counts) (JStr e) = Some (map tag (incr_name counts e)).
Proof.
  induction counts as [|[k n] counts IH]; cbn [map incr incr_name]; [reflexivity|].
  unfold tag at 1. cbn [fst snd Json.key_eqb obind].
  destruct (String.eqb k e); [reflexivity|].
  rewrite IH. reflexivity.
Qed.

Lemma count_all_tag (names : list string) :
  forall counts,
    count_all (map JStr names) (map tag counts)
    = Some (map tag (count_names names counts)).
Proof.
  unfold count_names.
  induction names as [|e names IH]; intro counts; cbn [map count_all fold_left];
    [reflexivity|].
  rewrite incr_tag. cbn [obind]. apply IH.
Qed.

Lemma str_items (l : list json) :
  forallb Json.is_str l = true -> map JStr (map str_of l) = l.
Proof.
  induction l as [|v l IH]; cbn [forallb map]; [reflexivity|].
  intro H. apply andb_prop in H. destruct H as [Hv Hl].
  destruct v; try discriminate. cbn [str_of]. now rewrite IH.
Qed.

Lemma extend_all_str_lists (results : list Result) :
  Forall (fun r => Json.is_str_list (emotions r) = true) results ->
  forall acc,
    extend_all results acc = Some (acc ++ map JStr (emotion_names results)).
Proof.
  unfold emotion_names.
  induction 1 as [|r results Hr _ IH]; intro acc; cbn [extend_all map List.concat].
  - now rewrite app_nil_r.
  - destruct (emotions r) as [| | | | |l|d]; try discriminate.
    cbn [Json.iter obind items_of Json.is_str_list] in *.
    rewrite IH, map_app, (str_items l Hr), app_assoc. reflexivity.
Qed.

Lemma insert_desc_tag (x : string * Z) (l : list (string * Z)) :
  insert_desc (tag x) (map tag l) = map tag (insert_desc x l).
Proof.
  induction l as [|y l IH]; cbn [map insert_desc]; [reflexivity|].
  change (snd (tag x)) with (snd x). change (snd (tag y)) with (snd y).
  destruct (snd x <? snd y)%Z; cbn [map]; [|reflexivity].
  now rewrite IH.
Qed.

Lemma sorted_desc_tag (l : list (string * Z)) :
  sorted_desc (map tag l) = map tag (sorted_desc l).
Proof.
  unfold sorted_desc.
  induction l as [|x l IH]; cbn [map fold_right]; [reflexivity|].
  rewrite IH. apply insert_desc_tag.
Qed.

Lemma top_emotions_of_str_lists (results : list Result) :
  Forall (fun r => Json.is_str_list (emotions r) = true) results ->
  top_emotions_of results
  = Some (map tag (firstn 5 (sorted_desc (count_names (emotion_names results) [])))).
Proof.
  intro Hwf. unfold top_emotions_of.
  rewrite (extend_all_str_lists results Hwf []). cbn [app obind].
  pose proof (count_all_tag (emotion_names results) []) as Hcount.
  cbn [map] in Hcount. rewrite Hcount. cbn [obind].
  now rewrite sorted_desc_tag, firstn_map.
Qed.

(** Where [get_summary_stats] returns statistics of a non-empty list, their
    [top_emotions] entry is the ranking. *)
Lemma stats_top_emotions float_sum (results : list Result) stats :
  results <> [] ->
  get_summary_stats float_sum results = Some stats ->
  exists tops,
    top_emotions_of results = Some tops
    /\ Dict.lookup stats "top_emotions" = Some (StPairs tops).
Proof.
  intros Hne H. destruct results as [|r results]; [congruence|].
  unfold get_summary_stats in H. unfold top_emotions_of.
  destruct (PyNum.float_of_int _) as [total_f|]; [|discriminate].
  destruct (PyNum.int_truediv _ _) as [avg_intensity|]; [|discriminate].
  cbn [obind] in H.
  destruct (extend_all (r :: results) []) as [all_emotions|]; [|discriminate].
  cbn [obind] in H |- *.
  destruct (count_all all_emotions []) as [emotion_counts|]; [|discriminate].
  cbn [obind] in H |- *.
  destruct (percentage _ _) as [p1|]; [|discriminate].
  destruct (percentage _ _) as [p2|]; [|discriminate].
  destruct (percentage _ _) as [p3|]; [|discriminate].
  cbn [obind] in H. inversion H; subst; clear H.
  eexists. split; reflexivity.
Qed.

Lemma sorted_weaken {A} (R R' : A -> A -> Prop) (l : list A) :
  (forall a b, R a b -> R' a b) -> StronglySorted R l -> StronglySorted R' l.
Proof.
  intros Himp. induction 1 as [|x l Hs IH Hx]; constructor; [assumption|].
  eapply Forall_impl; [|exact Hx]. intros b. apply Himp.
Qed.

Lemma sorted_map {A B} (f : A -> B) (R : B -> B -> Prop) (l : list A) :
  StronglySorted R (map f l) -> StronglySorted (fun a b => R (f a) (f b)) l.
Proof.
  induction l as [|x l IH]; cbn [map]; intro H; [constructor|].
  apply StronglySorted_inv in H. destruct H as [Hs Hx].
  constructor; [now apply IH|].
  apply Forall_forall. intros y Hy.
  rewrite Forall_forall in Hx. apply Hx. now apply in_map.
Qed.

(** The ranking that the counting loop and the stable sort produce from the
    emotions [names]: every distinct emotion once, with its number of
    occurrences, ordered by decreasing count and, among equal counts, by
    first occurrence. *)
Lemma ranking_properties (names : list string) :
  let ranking := sorted_desc (count_names names []) in
  (List.length (firstn 5 ranking) <= 5)%nat
  /\ NoDup (map fst ranking)
  /\ (forall e, In e (map fst ranking) <-> In e names)
  /\ (forall e c, In (e, c) ranking -> c = occurrences_among names e)
  /\ StronglySorted (fun a b => (snd b <= snd a)%Z) ranking
  /\ StronglySorted (ranks_before names) ranking.
Proof.
  set (counts := count_names names []). cbv zeta.
  pose proof (counted_all names) as (Hnd & Hkeys & Hcount & Hsorted).
  fold counts in Hnd, Hkeys, Hcount, Hsorted.
  pose proof (sorted_desc_perm counts) as Hperm.
  assert (Hrank : StronglySorted (ranks_before names) (sorted_desc counts)).
  { unfold ranks_before. apply sorted_desc_sorted.
    now apply (sorted_map fst (fun a b => (index_of a names < index_of b names)%nat)). }
  split; [apply firstn_le_length|].
  split; [eapply Permutation_NoDup; [apply Permutation_map; exact Hperm|exact Hnd]|].
  split.
  { intro e. rewrite <- Hkeys. split; apply Permutation_in.
    - apply Permutation_map. now symmetry.
    - now apply Permutation_map. }
  split.
  { intros e c Hin. rewrite <- Hcount. symmetry. apply count_of_entry; [exact Hnd|].
    eapply Permutation_in; [symmetry; exact Hperm|exact Hin]. }
  split; [|exact Hrank].
  eapply sorted_weaken; [|exact Hrank].
  intros a b Hab. eapply before_count. exact Hab.
Qed.

End RankingFacts.

(** ** Binary64 arithmetic of the percentages *)

Section FloatFacts.

Local Open Scope Z_scope.

Lemma digits2_pos_size (p : positive) : digits2_pos p = Pos.size p.
Proof. induction p as [p IH|p IH|]; cbn; now rewrite ?IH. Qed.

(** [2^(d-1) <= p < 2^d] for the number of digits [d] of [p]. *)
Lemma digits2_bounds (p : positive) :
  2 ^ (Zpos (digits2_pos p) - 1) <= Zpos p < 2 ^ Zpos (digits2_pos p).
Proof.
  rewrite digits2_pos_size.
  pose proof (Pos.size_gt p) as Hgt. pose proof (Pos.size_le p) as Hle.
  assert (H2 : Zpos (2 ^ Pos.size p) = 2 ^ Zpos (Pos.size p)) by apply Pos2Z.inj_pow.
  split.
  - assert (2 * 2 ^ (Zpos (Pos.size p) - 1) = 2 ^ Zpos (Pos.size p)).
    { rewrite <- Z.pow_succ_r by lia. f_equal. lia. }
    lia.
  - lia.
Qed.

Lemma shr_1_m (mrs : shr_record) :
  0 <= shr_m mrs -> shr_m (shr_1 mrs) = shr_m mrs / 2.
Proof.
  destruct mrs as [m r s]. cbn [shr_m]. intro Hm.
  destruct m as [|[p|p|]|p]; cbn [shr_1 shr_m]; try lia; try reflexivity.
  - rewrite Pos2Z.inj_xI. apply Z.div_unique with 1; lia.
  - rewrite Pos2Z.inj_xO. apply Z.div_unique with 0; lia.
Qed.

Lemma iter_pos_shr_m (n : positive) :
  forall mrs, 0 <= shr_m mrs ->
              shr_m (SpecFloat.iter_pos shr_1 n mrs) = shr_m mrs / 2 ^ Zpos n.
Proof.
  induction n as [n IH|n IH|]; intros mrs Hm; cbn [SpecFloat.iter_pos].
  - assert (H1 : 0 <= shr_m (shr_1 mrs))
      by (rewrite shr_1_m by assumption; apply Z.div_pos; lia).
    assert (H2 : 0 <= shr_m (SpecFloat.iter_pos shr_1 n (shr_1 mrs)))
      by (rewrite IH by assumption; apply Z.div_pos; lia).
    rewrite IH, IH, shr_1_m by assumption.
    rewrite !Z.div_div by lia. f_equal.
    change 2 with (2 ^ 1) at 1. rewrite <- !Z.pow_add_r by lia. f_equal. lia.
  - assert (H2 : 0 <= shr_m (SpecFloat.iter_pos shr_1 n mrs))
      by (rewrite IH by assumption; apply Z.div_pos; lia).
    rewrite IH, IH by assumption.
    rewrite !Z.div_div by lia. f_equal.
    rewrite <- Z.pow_add_r by lia. f_equal. lia.
  - rewrite shr_1_m by assumption. reflexivity.
Qed.

Lemma fexp_normal (e : Z) : -1021 <= e -> fexp prec emax e = e - 53.
Proof. intro H. unfold fexp, SpecFloat.emin, prec, emax. lia. Qed.

Lemma shr_record_of_loc_m (m : Z) (l : location) : shr_m (shr_record_of_loc m l) = m.
Proof. destruct l as [|[| |]]; reflexivity. Qed.

Lemma shr_spec (mrs : shr_record) (e n : Z) :
  0 <= shr_m mrs -> 0 <= n ->
  shr_m (fst (shr mrs e n)) = shr_m mrs / 2 ^ n /\ snd (shr mrs e n) = e + n.
Proof.
  intros Hm Hn. destruct n as [|n|n]; cbn [shr fst snd]; [| |lia].
  - rewrite Z.pow_0_r, Z.div_1_r. split; [reflexivity|lia].
  - split; [now apply iter_pos_shr_m|reflexivity].
Qed.

Lemma round_nearest_even_cases (m : Z) (l : location) :
  round_nearest_even m l = m \/ round_nearest_even m l = m + 1.
Proof.
  destruct l as [|[| |]]; cbn [round_nearest_even]; auto.
  destruct (Z.even m); auto.
Qed.

Lemma digits2_unique (q : positive) (k : Z) :
  2 ^ (k - 1) <= Zpos q < 2 ^ k -> Zpos (digits2_pos q) = k.
Proof.
  intros [Hlo Hhi]. pose proof (digits2_bounds q) as [Dlo Dhi].
  set (d := Zpos (digits2_pos q)) in *.
  assert (0 < d) by (unfold d; lia).
  destruct (Z.lt_trichotomy d k) as [Hlt|[Heq|Hgt]]; [|assumption|].
  - exfalso. assert (2 ^ d <= 2 ^ (k - 1)) by (apply Z.pow_le_mono_r; lia). lia.
  - exfalso. assert (0 <= k).
    { destruct (Z_lt_le_dec k 0) as [Hneg|]; [|assumption].
      rewrite (Z.pow_neg_r 2 k) in Hhi by assumption. lia. }
    assert (2 ^ k <= 2 ^ (d - 1)) by (apply Z.pow_le_mono_r; lia). lia.
Qed.

(** Rounding a mantissa of at least 53 digits whose value is in the normal
    range of binary64: the result is a finite number with a 53-digit
    mantissa, and its value is one of the two multiples of the unit
    [2^(ex + d - 53)] that enclose the mantissa. *)
Lemma binary_round_aux_normal (s : bool) (p : positive) (ex : Z) (lx : location) :
  let d := Zpos (digits2_pos p) in
  53 <= d -> -1021 <= d + ex -> d + ex <= 1023 ->
  exists (m : positive) (e : Z),
    binary_round_aux prec emax s (Zpos p) ex lx = S754_finite s m e
    /\ 2 ^ 52 <= Zpos m < 2 ^ 53
    /\ ex + d - 53 <= e <= ex + d - 52
    /\ Zpos p / 2 ^ (d - 53) <= Zpos m * 2 ^ (e - (ex + d - 53))
       <= Zpos p / 2 ^ (d - 53) + 1.
Proof.
  intros d Hd Hlo Hhi.
  pose proof (digits2_bounds p) as [Plo Phi]. fold d in Plo, Phi.
  set (F := Zpos p / 2 ^ (d - 53)).
  assert (HF : 2 ^ 52 <= F < 2 ^ 53).
  { unfold F. split.
    - apply Z.div_le_lower_bound; [apply Z.pow_pos_nonneg; lia|].
      rewrite <- Z.pow_add_r by lia. replace (d - 53 + 52) with (d - 1) by lia. exact Plo.
    - apply Z.div_lt_upper_bound; [apply Z.pow_pos_nonneg; lia|].
      rewrite <- Z.pow_add_r by lia. replace (d - 53 + 53) with d by lia. exact Phi. }
  unfold binary_round_aux.
  (* first shift *)
  unfold shr_fexp at 1. cbn [Zdigits2]. fold d.
  rewrite fexp_normal by lia.
  replace (d + ex - 53 - ex) with (d - 53) by lia.
  destruct (shr_spec (shr_record_of_loc (Zpos p) lx) ex (d - 53)) as [Hm1 He1];
    [rewrite shr_record_of_loc_m; lia|lia|].
  rewrite shr_record_of_loc_m in Hm1. fold F in Hm1.
  destruct (shr (shr_record_of_loc (Zpos p) lx) ex (d - 53)) as [mrs1 e1].
  cbn [fst snd] in Hm1, He1. subst e1. rewrite Hm1.
  set (m1 := round_nearest_even F (loc_of_shr_record mrs1)).
  assert (Hm1c : m1 = F \/ m1 = F + 1) by apply round_nearest_even_cases.
  assert (Hm1b : 2 ^ 52 <= m1 <= 2 ^ 53) by lia.
  destruct m1 as [|q|q] eqn:Hq; try lia.
  (* second shift *)
  unfold shr_fexp. cbn [Zdigits2].
  destruct (Z_lt_le_dec (Zpos q) (2 ^ 53)) as [Hlt|Hge].
  - rewrite (digits2_unique q 53) by (change (53 - 1) with 52; lia).
    rewrite fexp_normal by lia.
    replace (53 + (ex + (d - 53)) - 53 - (ex + (d - 53))) with 0 by lia.
    cbn [shr shr_record_of_loc shr_m].
    replace (ex + (d - 53) <=? emax - prec) with true
      by (symmetry; apply Z.leb_le; unfold emax, prec; lia).
    exists q, (ex + (d - 53)). split; [reflexivity|].
    split; [lia|]. split; [lia|].
    replace (ex + (d - 53) - (ex + d - 53)) with 0 by lia.
    rewrite Z.pow_0_r, Z.mul_1_r. lia.
  - assert (Hq53 : Zpos q = 2 ^ 53) by lia.
    rewrite (digits2_unique q 54) by (change (54 - 1) with 53; rewrite Hq53; split; [lia|reflexivity]).
    rewrite fexp_normal by lia.
    replace (54 + (ex + (d - 53)) - 53 - (ex + (d - 53))) with 1 by lia.
    assert (Hq' : q = (2 ^ 53)%positive) by (apply Pos2Z.inj; rewrite Hq53; reflexivity).
    subst q. cbn [shr shr_record_of_loc SpecFloat.iter_pos shr_1 shr_m fst snd orb Pos.pow].
    replace (ex + (d - 53) + 1 <=? emax - prec) with true
      by (symmetry; apply Z.leb_le; unfold emax, prec; lia).
    eexists _, (ex + (d - 53) + 1). split; [reflexivity|].
    split; [vm_compute; split; [discriminate|reflexivity]|].
    split; [lia|].
    replace (ex + (d - 53) + 1 - (ex + d - 53)) with 1 by lia.
    change (2 ^ 1) with 2.
    assert (HF53 : F + 1 = 2 ^ 53) by lia. rewrite HF53. split; [lia|].
    vm_compute. discriminate.
Qed.

Lemma pow2_pos (k : Z) : 0 <= k -> 0 < 2 ^ k.
Proof. intro H. apply Z.pow_pos_nonneg; lia. Qed.

Lemma pow2_split (a b : Z) : 0 <= a -> 0 <= b -> 2 ^ (a + b) = 2 ^ a * 2 ^ b.
Proof. intros. apply Z.pow_add_r; assumption. Qed.

(** The quotient of two positive integers, rounded to binary64, when the
    quotient is in the normal range and below [2^51]: a 53-digit mantissa
    [m] and an exponent [e <= 0] with [(m-1) * 2^e <= c/n <= (m+1) * 2^e]. *)
Lemma sfdiv_ints (c n : positive) :
  let K := Zpos (digits2_pos c) - Zpos (digits2_pos n) in
  -1000 <= K <= 50 ->
  exists (m : positive) (e : Z),
    SFdiv prec emax (S754_finite false c 0) (S754_finite false n 0)
    = S754_finite false m e
    /\ 2 ^ 52 <= Zpos m < 2 ^ 53
    /\ K - 53 <= e <= K - 51
    /\ (Zpos m - 1) * Zpos n <= Zpos c * 2 ^ (- e) <= (Zpos m + 1) * Zpos n.
Proof.
  intros K HK.
  pose proof (digits2_bounds c) as [Clo Chi].
  pose proof (digits2_bounds n) as [Nlo Nhi].
  set (d1 := Zpos (digits2_pos c)) in *. set (d2 := Zpos (digits2_pos n)) in *.
  assert (Hd1 : 0 < d1) by (unfold d1; lia).
  assert (Hd2 : 0 < d2) by (unfold d2; lia).
  set (s := 53 - K).
  assert (Hs : 0 < s) by (unfold s; lia).
  cbn [SFdiv xorb]. unfold SFdiv_core_binary. cbn [Zdigits2]. fold d1 d2.
  replace (d1 + 0 - (d2 + 0)) with K by (unfold K; lia).
  rewrite fexp_normal by lia.
  replace (Z.min (K - 53) (0 - 0)) with (K - 53) by lia.
  replace (0 - 0 - (K - 53)) with s by (unfold s; lia).
  destruct s as [|sp|sp] eqn:Hsp; try lia. rewrite <- Hsp in *. clear Hsp sp.
  rewrite Z.shiftl_mul_pow2 by lia.
  set (m' := Zpos c * 2 ^ s).
  pose proof (Z_div_mod m' (Zpos n) ltac:(lia)) as Hdm.
  destruct (Z.div_eucl m' (Zpos n)) as [q r]. destruct Hdm as [Hm' Hr].
  (* the quotient has 53 or 54 digits *)
  assert (Hps : 0 < 2 ^ s) by (apply pow2_pos; lia).
  assert (Hlow : 2 ^ 52 * Zpos n < m').
  { unfold m'. assert (2 ^ 52 * 2 ^ d2 = 2 ^ (d1 - 1) * 2 ^ s).
    { rewrite <- !pow2_split by lia. f_equal. unfold s, K. lia. }
    nia. }
  assert (Hupp : m' < 2 ^ 54 * Zpos n).
  { unfold m'. assert (2 ^ 54 * 2 ^ (d2 - 1) = 2 ^ d1 * 2 ^ s).
    { rewrite <- !pow2_split by lia. f_equal. unfold s, K. lia. }
    nia. }
  assert (Hq : 2 ^ 52 <= q < 2 ^ 54) by nia.
  destruct q as [|q|q]; try lia.
  pose proof (digits2_bounds q) as [Qlo Qhi].
  set (dq := Zpos (digits2_pos q)) in *.
  assert (Hdq : 53 <= dq <= 54).
  { split.
    - destruct (Z_lt_le_dec dq 53) as [Hlt|]; [|assumption].
      assert (2 ^ dq <= 2 ^ 52) by (apply Z.pow_le_mono_r; lia). lia.
    - destruct (Z_lt_le_dec 54 dq) as [Hlt|]; [|assumption].
      assert (2 ^ 54 <= 2 ^ (dq - 1)) by (apply Z.pow_le_mono_r; lia). lia. }
  destruct (binary_round_aux_normal false q (K - 53) (new_location (Zpos n) r))
    as (m & e & Hbra & Hm & He & Hval); fold dq; try lia.
  fold dq in He, Hval.
  exists m, e. split; [exact Hbra|]. split; [exact Hm|]. split; [lia|].
  (* the bracket *)
  set (u := 2 ^ (dq - 53)) in *. set (v := 2 ^ (e - (K - 53 + dq - 53))) in *.
  assert (Hu : 0 < u) by (apply pow2_pos; lia).
  assert (Hv : 0 < v) by (apply pow2_pos; lia).
  assert (Hpow : 2 ^ s = 2 ^ (- e) * u * v).
  { unfold u, v. rewrite <- !pow2_split by lia. f_equal. unfold s. lia. }
  set (A := 2 ^ (- e)) in *.
  set (Fq := Zpos q / u) in *.
  assert (HFq : Fq * u <= Zpos q < (Fq + 1) * u).
  { unfold Fq. pose proof (Z.mul_div_le (Zpos q) u Hu).
    pose proof (Z.mul_succ_div_gt (Zpos q) u Hu). nia. }
  assert (Hc : Zpos c * (A * u * v) = Zpos n * Zpos q + r)
    by (rewrite <- Hpow; exact Hm').
  destruct Hval as [Hval1 Hval2]. destruct HFq as [HFq1 HFq2].
  set (M := Zpos m) in *. set (C := Zpos c) in *. set (N := Zpos n) in *.
  set (Q := Zpos q) in *.
  assert (HN : 0 < N) by (unfold N; lia).
  assert (HM : 0 < M) by (unfold M; lia).
  clearbody M C N Q A u v Fq.
  assert (Huv : 0 < u * v) by (apply Z.mul_pos_pos; assumption).
  split.
  - apply (Z.mul_le_mono_pos_r _ _ (u * v)); [exact Huv|].
    assert (S1 : N * (Fq * u) <= N * Q) by (apply Z.mul_le_mono_nonneg_l; lia).
    assert (S2 : N * ((M * v - 1) * u) <= N * (Fq * u)).
    { apply Z.mul_le_mono_nonneg_l; [lia|]. apply Z.mul_le_mono_nonneg_r; lia. }
    assert (S3 : N * ((M - 1) * v * u) <= N * ((M * v - 1) * u)).
    { apply Z.mul_le_mono_nonneg_l; [lia|]. apply Z.mul_le_mono_nonneg_r; [lia|].
      assert (1 * v <= M * v) by (apply Z.mul_le_mono_nonneg_r; lia). lia. }
    lia.
  - apply (Z.mul_le_mono_pos_r _ _ (u * v)); [exact Huv|].
    assert (S1 : N * (Q + 1) <= N * ((Fq + 1) * u))
      by (apply Z.mul_le_mono_nonneg_l; lia).
    assert (S2 : N * ((Fq + 1) * u) <= N * ((M * v + 1) * u)).
    { apply Z.mul_le_mono_nonneg_l; [lia|]. apply Z.mul_le_mono_nonneg_r; lia. }
    assert (S3 : N * ((M * v + 1) * u) <= N * ((M + 1) * v * u)).
    { apply Z.mul_le_mono_nonneg_l; [lia|]. apply Z.mul_le_mono_nonneg_r; [lia|]. lia. }
    lia.
Qed.

(** The product of two binary64 numbers with 53-digit mantissas, in the normal
    range: the mantissa [m] and exponent [e] of the result enclose the exact
    product within one unit. *)
Lemma sfmul_normal (m1 m2 : positive) (e1 e2 : Z) :
  2 ^ 52 <= Zpos m1 < 2 ^ 53 -> 2 ^ 52 <= Zpos m2 < 2 ^ 53 ->
  -1126 <= e1 + e2 <= 917 ->
  exists (m : positive) (e : Z),
    SFmul prec emax (S754_finite false m1 e1) (S754_finite false m2 e2)
    = S754_finite false m e
    /\ 2 ^ 52 <= Zpos m < 2 ^ 53
    /\ e1 + e2 + 52 <= e <= e1 + e2 + 54
    /\ (Zpos m - 1) * 2 ^ (e - e1 - e2) <= Zpos m1 * Zpos m2
       <= (Zpos m + 1) * 2 ^ (e - e1 - e2).
Proof.
  intros H1 H2 He. cbn [SFmul xorb].
  set (p := (m1 * m2)%positive).
  assert (Hp : Zpos p = Zpos m1 * Zpos m2) by apply Pos2Z.inj_mul.
  assert (Hpb : 2 ^ 104 <= Zpos p < 2 ^ 106).
  { rewrite Hp. change (2 ^ 104) with (2 ^ 52 * 2 ^ 52).
    change (2 ^ 106) with (2 ^ 53 * 2 ^ 53). nia. }
  pose proof (digits2_bounds p) as [Plo Phi].
  set (dp := Zpos (digits2_pos p)) in *.
  assert (Hdp : 105 <= dp <= 106).
  { split.
    - destruct (Z_lt_le_dec dp 105) as [Hlt|]; [|assumption].
      assert (2 ^ dp <= 2 ^ 104) by (apply Z.pow_le_mono_r; lia). lia.
    - destruct (Z_lt_le_dec 106 dp) as [Hlt|]; [|assumption].
      assert (2 ^ 106 <= 2 ^ (dp - 1)) by (apply Z.pow_le_mono_r; lia). lia. }
  destruct (binary_round_aux_normal false p (e1 + e2) loc_Exact)
    as (m & e & Hbra & Hm & Hee & Hval); fold dp; try lia.
  fold dp in Hee, Hval.
  exists m, e. split; [exact Hbra|]. split; [exact Hm|]. split; [lia|].
  set (u := 2 ^ (dp - 53)) in *. set (v := 2 ^ (e - (e1 + e2 + dp - 53))) in *.
  assert (Hu : 0 < u) by (apply pow2_pos; lia).
  assert (Hv : 0 < v) by (apply pow2_pos; lia).
  assert (Hpow : 2 ^ (e - e1 - e2) = u * v).
  { unfold u, v. rewrite <- pow2_split by lia. f_equal. lia. }
  rewrite Hpow, <- Hp.
  set (Fp := Zpos p / u) in *.
  assert (HFp : Fp * u <= Zpos p < (Fp + 1) * u).
  { unfold Fp. pose proof (Z.mul_div_le (Zpos p) u Hu).
    pose proof (Z.mul_succ_div_gt (Zpos p) u Hu). nia. }
  split; nia.
Qed.

(** [div_half_even a b] is a nearest integer to [a / b]. *)
Lemma div_half_even_spec (a b : Z) :
  0 <= a -> 0 < b ->
  let k := PyNum.div_half_even a b in
  0 <= k /\ 2 * k * b - b <= 2 * a <= 2 * k * b + b.
Proof.
  intros Ha Hb. unfold PyNum.div_half_even.
  pose proof (Z.div_mod a b ltac:(lia)) as Hdm.
  pose proof (Z.mod_pos_bound a b Hb) as Hr.
  assert (Hq : 0 <= a / b) by (apply Z.div_pos; lia).
  set (q := a / b) in *. set (r := a mod b) in *. clearbody q r.
  destruct (2 * r ?= b) eqn:Hcmp.
  - apply Z.compare_eq in Hcmp. destruct (Z.even q); cbv beta iota zeta; lia.
  - rewrite Z.compare_lt_iff in Hcmp. cbv beta iota zeta. lia.
  - rewrite Z.compare_gt_iff in Hcmp. cbv beta iota zeta. lia.
Qed.

Lemma pow2_lt_exponent (a b : Z) : 0 <= b -> 2 ^ a < 2 ^ b -> a < b.
Proof.
  intros Hb H. destruct (Z_lt_le_dec a b) as [|Hge]; [assumption|].
  assert (2 ^ b <= 2 ^ a) by (apply Z.pow_le_mono_r; lia). lia.
Qed.

Lemma valid_normal (m : positive) (e : Z) :
  2 ^ 52 <= Zpos m < 2 ^ 53 -> -1074 <= e <= 971 ->
  SpecFloat.valid_binary prec emax (S754_finite false m e) = true.
Proof.
  intros Hm He. cbn [SpecFloat.valid_binary]. unfold SpecFloat.bounded, SpecFloat.canonical_mantissa.
  rewrite (digits2_unique m 53) by (change (53 - 1) with 52; exact Hm).
  rewrite fexp_normal by lia.
  apply andb_true_intro. split; [apply Z.eqb_eq; lia|].
  apply Z.leb_le. unfold emax, prec. lia.
Qed.

Lemma Prim2SF_hundred : Prim2SF 100 = S754_finite false 7036874417766400 (-46).
Proof. reflexivity. Qed.

Lemma hundred_mantissa : 7036874417766400 = 100 * 2 ^ 46.
Proof. reflexivity. Qed.

(** One percentage: the result is the binary64 value nearest to [k / 10] for
    an integer [k] between 0 and 1000 that differs from [1000 * c / n] by
    hardly more than one half. *)
Lemma percentage_tenths (c n : Z) :
  0 <= c <= n -> 0 < n < 2 ^ 63 ->
  exists k,
    percentage c n = Some (tenth k)
    /\ 0 <= k <= 1000
    /\ 2 ^ 43 * (2 * k * n - 2000 * c) <= n * (2 ^ 43 + 52)
    /\ 2 ^ 43 * (2000 * c - 2 * k * n) <= n * (2 ^ 43 + 52).
Proof.
  intros Hc Hn. unfold percentage, PyNum.int_truediv.
  replace (n =? 0) with false by (symmetry; apply Z.eqb_neq; lia).
  destruct n as [|np|np]; try lia.
  destruct c as [|cp|cp]; try lia.
  - (* no result of this sentiment *)
    exists 0. split; [reflexivity|]. lia.
  - cbn [PyNum.SF_of_Z].
    pose proof (digits2_bounds cp) as [Clo Chi].
    pose proof (digits2_bounds np) as [Nlo Nhi].
    assert (Hd1 : 0 < Zpos (digits2_pos cp)) by lia.
    assert (Hd2 : Zpos (digits2_pos np) <= 63).
    { assert (Zpos (digits2_pos np) - 1 < 63); [|lia].
      apply pow2_lt_exponent; lia. }
    assert (Hd12 : Zpos (digits2_pos cp) <= Zpos (digits2_pos np)).
    { assert (Zpos (digits2_pos cp) - 1 < Zpos (digits2_pos np)); [|lia].
      apply pow2_lt_exponent; lia. }
    destruct (sfdiv_ints cp np) as (m & e & Hdiv & Hm & He & Hq); [lia|].
    rewrite Hdiv. cbn [PyNum.is_infinity obind].
    set (q := SF2Prim (S754_finite false m e)).
    assert (Hq2 : Prim2SF q = S754_finite false m e)
      by (apply Prim2SF_SF2Prim, valid_normal; [exact Hm|lia]).
    destruct (sfmul_normal m 7036874417766400 e (-46)) as (m' & e' & Hmul & Hm' & He' & Hx);
      [exact Hm|vm_compute; split; [discriminate|reflexivity]|lia|].
    assert (Hx2 : Prim2SF (q * 100)%float = S754_finite false m' e').
    { rewrite mul_spec, Hq2, Prim2SF_hundred. exact Hmul. }
    unfold PyNum.round. rewrite Hx2.
    replace (0 <=? e') with false by (symmetry; apply Z.leb_gt; lia).
    cbn [PyNum.round_sf].
    replace (0 <=? e') with false by (symmetry; apply Z.leb_gt; lia).
    unfold PyNum.scaled_digits. change (10 ^ 1) with 10.
    set (B := 2 ^ (- e')).
    assert (HB : 2 ^ 43 <= B) by (apply Z.pow_le_mono_r; lia).
    destruct (div_half_even_spec (Zpos m' * 10) B) as [Hk0 Hk]; [lia|lia|].
    set (k := PyNum.div_half_even (Zpos m' * 10) B) in *.
    exists k.
    assert (Hres : SF2Prim match k with
                           | Zpos k0 => SFdiv prec emax (S754_finite false k0 0)
                                              (PyNum.SF_of_Z 10)
                           | _ => S754_zero false
                           end = tenth k).
    { unfold tenth. destruct k as [|k0|k0]; try lia; reflexivity. }
    rewrite Hres. split; [reflexivity|].
    (* the three brackets combined *)
    set (w := 2 ^ (e' - e)) in *.
    assert (Hw : 64 <= w).
    { unfold w. change 64 with (2 ^ 6). apply Z.pow_le_mono_r; lia. }
    assert (HA : 2 ^ (- e) = w * B).
    { unfold w, B. rewrite <- pow2_split by lia. f_equal. lia. }
    assert (Hx' : (Zpos m' - 1) * w <= 100 * Zpos m <= (Zpos m' + 1) * w).
    { replace (e' - e - -46) with ((e' - e) + 46) in Hx by lia.
      rewrite pow2_split in Hx by lia. fold w in Hx.
      rewrite hundred_mantissa in Hx.
      assert (0 < 2 ^ 46) by (apply pow2_pos; lia).
      split.
      - apply (Z.mul_le_mono_pos_r _ _ (2 ^ 46)); [assumption|]. lia.
      - apply (Z.mul_le_mono_pos_r _ _ (2 ^ 46)); [assumption|]. lia. }
    rewrite HA in Hq.
    set (C := Zpos cp) in *. set (N := Zpos np) in *.
    set (M := Zpos m) in *. set (M' := Zpos m') in *.
    assert (HN : 0 < N) by (unfold N; lia).
    assert (HBpos : 0 < B) by lia.
    clearbody C N M M' w B k.
    change (2 ^ 43) with 8796093022208 in *.
    destruct Hq as [Hq1 Hq2b]. destruct Hx' as [Hx1 Hx2b]. destruct Hk as [Hk1 Hk2].
    assert (HwN : 0 <= w * N) by (apply Z.mul_nonneg_nonneg; lia).
    assert (H64 : 64 * N <= w * N) by (apply Z.mul_le_mono_nonneg_r; lia).
    assert (Hx1N : (M' - 1) * w * N <= 100 * M * N)
      by (apply Z.mul_le_mono_nonneg_r; lia).
    assert (Hx2N : 100 * M * N <= (M' + 1) * w * N)
      by (apply Z.mul_le_mono_nonneg_r; lia).
    assert (Hk1N : (2 * k * B - B) * (w * N) <= 2 * (M' * 10) * (w * N))
      by (apply Z.mul_le_mono_nonneg_r; lia).
    assert (Hk2N : 2 * (M' * 10) * (w * N) <= (2 * k * B + B) * (w * N))
      by (apply Z.mul_le_mono_nonneg_r; lia).
    assert (Hup : B * (2 * k * N - 2000 * C) <= N * (B + 52)).
    { apply (Z.mul_le_mono_pos_l _ _ w); [lia|]. lia. }
    assert (Hdn : B * (2000 * C - 2 * k * N) <= N * (B + 52)).
    { apply (Z.mul_le_mono_pos_l _ _ w); [lia|]. lia. }
    assert (Hup' : 8796093022208 * (2 * k * N - 2000 * C) <= N * (8796093022208 + 52)).
    { destruct (Z_le_gt_dec (2 * k * N - 2000 * C) N) as [Hle|Hgt]; [lia|].
      assert (8796093022208 * (2 * k * N - 2000 * C - N)
              <= B * (2 * k * N - 2000 * C - N))
        by (apply Z.mul_le_mono_nonneg_r; lia).
      lia. }
    assert (Hdn' : 8796093022208 * (2000 * C - 2 * k * N) <= N * (8796093022208 + 52)).
    { destruct (Z_le_gt_dec (2000 * C - 2 * k * N) N) as [Hle|Hgt]; [lia|].
      assert (8796093022208 * (2000 * C - 2 * k * N - N)
              <= B * (2000 * C - 2 * k * N - N))
        by (apply Z.mul_le_mono_nonneg_r; lia).
      lia. }
    split; [|split; assumption].
    split; [assumption|].
    destruct (Z_le_gt_dec k 1000) as [Hle|Hgt]; [assumption|exfalso].
    assert (1001 * N <= k * N) by (apply Z.mul_le_mono_nonneg_r; lia).
    lia.
Qed.

Lemma iter_xO_value (k : positive) (p : positive) :
  Zpos (Pos.iter xO p k) = Zpos p * 2 ^ Zpos k.
Proof.
  revert p. induction k as [|k IH] using Pos.peano_ind; intro p.
  - cbn [Pos.iter]. rewrite Pos2Z.inj_xO. change (2 ^ 1) with 2. lia.
  - rewrite Pos.iter_succ, Pos2Z.inj_xO, IH, Pos2Z.inj_succ, Z.pow_succ_r by lia. ring.
Qed.

(** [float(z)] returns for every positive integer below [2^1023]. *)
Lemma float_of_int_some (z : Z) :
  0 < z < 2 ^ 63 -> exists f, PyNum.float_of_int z = Some f.
Proof.
  intros Hz. unfold PyNum.float_of_int.
  destruct z as [|p|p]; try lia. cbn [binary_normalize]. unfold binary_round.
  pose proof (digits2_bounds p) as [Plo Phi].
  set (d := Zpos (digits2_pos p)) in *.
  assert (Hd : 0 < d <= 63).
  { split; [unfold d; lia|]. assert (d - 1 < 63); [|lia]. apply pow2_lt_exponent; lia. }
  replace (d + 0) with d by lia. rewrite fexp_normal by lia.
  unfold shl_align.
  destruct (d - 53 - 0) as [|t|t] eqn:Ht.
  - destruct (binary_round_aux_normal false p 0 loc_Exact) as (m & e & Hbra & _);
      fold d; try lia.
    rewrite Hbra. eexists. reflexivity.
  - destruct (binary_round_aux_normal false p 0 loc_Exact) as (m & e & Hbra & _);
      fold d; try lia.
    rewrite Hbra. eexists. reflexivity.
  - assert (Hq : Zpos (Pos.iter xO p t) = Zpos p * 2 ^ Zpos t) by apply iter_xO_value.
    assert (Ht' : Zpos t = 53 - d) by lia.
    assert (Hqb : 2 ^ 52 <= Zpos (Pos.iter xO p t) < 2 ^ 53).
    { rewrite Hq, Ht'.
      assert (H1 : 2 ^ (d - 1) * 2 ^ (53 - d) = 2 ^ 52)
        by (rewrite <- pow2_split by lia; f_equal; lia).
      assert (H2 : 2 ^ d * 2 ^ (53 - d) = 2 ^ 53)
        by (rewrite <- pow2_split by lia; f_equal; lia).
      assert (0 < 2 ^ (53 - d)) by (apply pow2_pos; lia).
      rewrite <- H1, <- H2. split.
      - apply Z.mul_le_mono_nonneg_r; lia.
      - apply Z.mul_lt_mono_pos_r; lia. }
    pose proof (digits2_unique (Pos.iter xO p t) 53) as Hdq.
    change (53 - 1) with 52 in Hdq. specialize (Hdq Hqb).
    destruct (binary_round_aux_normal false (Pos.iter xO p t) (d - 53) loc_Exact)
      as (m & e & Hbra & _); rewrite ?Hdq; try lia.
    rewrite Hbra. eexists. reflexivity.
Qed.

(** [a / n] returns when [n <= a <= 10 * n]. *)
Lemma int_truediv_some (a n : Z) :
  0 < n -> n <= a <= 10 * n -> exists f, PyNum.int_truediv a n = Some f.
Proof.
  intros Hn Ha. unfold PyNum.int_truediv.
  replace (n =? 0) with false by (symmetry; apply Z.eqb_neq; lia).
  destruct n as [|np|np]; try lia. destruct a as [|ap|ap]; try lia.
  cbn [PyNum.SF_of_Z].
  pose proof (digits2_bounds ap) as [Alo Ahi].
  pose proof (digits2_bounds np) as [Nlo Nhi].
  assert (H1 : Zpos (digits2_pos np) - 1 < Zpos (digits2_pos ap))
    by (apply pow2_lt_exponent; lia).
  assert (H2 : Zpos (digits2_pos ap) - 1 < Zpos (digits2_pos np) + 4).
  { apply pow2_lt_exponent; [lia|]. rewrite pow2_split by lia.
    change (2 ^ 4) with 16. lia. }
  destruct (sfdiv_ints ap np) as (m & e & Hdiv & _); [lia|].
  rewrite Hdiv. eexists. reflexivity.
Qed.

End FloatFacts.

(** ** The statistics of well-formed results *)

Lemma table_checked : table_agrees tenth_table = true.
Proof. vm_compute. reflexivity. Qed.

Lemma triples_checked : triples_ok (tenth_lookup tenth_table) = true.
Proof. vm_compute. reflexivity. Qed.

Lemma in_range1001 (k : Z) : (0 <= k <= 1000)%Z -> In k range1001.
Proof.
  intro H. unfold range1001. rewrite <- (Z2Nat.id k) by lia.
  apply in_map, in_seq. lia.
Qed.

Lemma table_agrees_sound (t : PositiveMap.t float) (k : Z) :
  table_agrees t = true -> (0 <= k <= 1000)%Z -> tenth_lookup t k = tenth k.
Proof.
  intros Hagree H. unfold table_agrees in Hagree. rewrite forallb_forall in Hagree.
  apply FloatAxioms.Leibniz.eqb_spec, Hagree, in_range1001, H.
Qed.

Lemma triples_ok_sound (tenth_of : Z -> float) (k1 k2 k3 : Z) :
  triples_ok tenth_of = true ->
  (0 <= k1 <= 1000)%Z -> (0 <= k2 <= 1000)%Z -> (0 <= k3 <= 1000)%Z ->
  (999 <= k1 + k2 + k3 <= 1001)%Z ->
  nearly_within_tenth (tenth_of k1) (tenth_of k2) (tenth_of k3) = true.
Proof.
  intros Hall H1 H2 H3 Hs.
  unfold triples_ok in Hall. rewrite forallb_forall in Hall.
  specialize (Hall k1 (in_range1001 k1 H1)). rewrite forallb_forall in Hall.
  specialize (Hall k2 (in_range1001 k2 H2)). rewrite forallb_forall in Hall.
  specialize (Hall (k1 + k2 + k3 - 1000)%Z).
  assert (Hd : In (k1 + k2 + k3 - 1000)%Z [(-1)%Z; 0%Z; 1%Z]).
  { cbn [In].
    assert (Hcase : (k1 + k2 + k3 - 1000 = -1 \/ k1 + k2 + k3 - 1000 = 0
                     \/ k1 + k2 + k3 - 1000 = 1)%Z) by lia.
    destruct Hcase as [Hc|[Hc|Hc]]; rewrite Hc; auto. }
  specialize (Hall Hd). cbv zeta in Hall.
  replace (1000 + (k1 + k2 + k3 - 1000) - k1 - k2)%Z with k3 in Hall by lia.
  replace ((0 <=? k3) && (k3 <=? 1000))%Z with true in Hall
    by (symmetry; apply andb_true_intro; split; apply Z.leb_le; lia).
  exact Hall.
Qed.

(** Three tenths between 0 and 1000 that sum to 999, 1000 or 1001 give
    percentages whose binary64 sum is nearly within a tenth of 100. *)
Lemma tenths_nearly_within_tenth (k1 k2 k3 : Z) :
  (0 <= k1 <= 1000)%Z -> (0 <= k2 <= 1000)%Z -> (0 <= k3 <= 1000)%Z ->
  (999 <= k1 + k2 + k3 <= 1001)%Z ->
  nearly_within_tenth (tenth k1) (tenth k2) (tenth k3) = true.
Proof.
  intros H1 H2 H3 Hs.
  rewrite <- (table_agrees_sound tenth_table k1 table_checked H1).
  rewrite <- (table_agrees_sound tenth_table k2 table_checked H2).
  rewrite <- (table_agrees_sound tenth_table k3 table_checked H3).
  now apply triples_ok_sound; [apply triples_checked| | | |].
Qed.

(** Three tenths, each within a half of its share of 1000, sum to 999, 1000
    or 1001. *)
Lemma tenths_sum (c1 c2 c3 k1 k2 k3 n : Z) :
  (0 < n)%Z -> (c1 + c2 + c3 = n)%Z ->
  (2 ^ 43 * (2 * k1 * n - 2000 * c1) <= n * (2 ^ 43 + 52))%Z ->
  (2 ^ 43 * (2000 * c1 - 2 * k1 * n) <= n * (2 ^ 43 + 52))%Z ->
  (2 ^ 43 * (2 * k2 * n - 2000 * c2) <= n * (2 ^ 43 + 52))%Z ->
  (2 ^ 43 * (2000 * c2 - 2 * k2 * n) <= n * (2 ^ 43 + 52))%Z ->
  (2 ^ 43 * (2 * k3 * n - 2000 * c3) <= n * (2 ^ 43 + 52))%Z ->
  (2 ^ 43 * (2000 * c3 - 2 * k3 * n) <= n * (2 ^ 43 + 52))%Z ->
  (999 <= k1 + k2 + k3 <= 1001)%Z.
Proof.
  intros Hn Hc U1 D1 U2 D2 U3 D3.
  change (2 ^ 43)%Z with 8796093022208%Z in *.
  subst n. set (n := (c1 + c2 + c3)%Z) in *.
  set (K := (k1 + k2 + k3)%Z).
  assert (HU : (8796093022208 * (2 * (K * n) - 2000 * n) <= 3 * n * 8796093022260)%Z).
  { unfold K. replace (2000 * n)%Z with (2000 * c1 + 2000 * c2 + 2000 * c3)%Z
      by (unfold n; lia). lia. }
  assert (HD : (8796093022208 * (2000 * n - 2 * (K * n)) <= 3 * n * 8796093022260)%Z).
  { unfold K. replace (2000 * n)%Z with (2000 * c1 + 2000 * c2 + 2000 * c3)%Z
      by (unfold n; lia). lia. }
  clearbody n K. split.
  - destruct (Z_le_gt_dec 999 K) as [|Hlt]; [assumption|exfalso].
    assert ((K * n <= 998 * n)%Z) by (apply Z.mul_le_mono_nonneg_r; lia). lia.
  - destruct (Z_le_gt_dec K 1001) as [|Hgt]; [assumption|exfalso].
    assert ((1002 * n <= K * n)%Z) by (apply Z.mul_le_mono_nonneg_r; lia). lia.
Qed.

(** The three counts of a list whose sentiments are among the three values
    add up to its length. *)
Lemma counts_add_up (results : list Result) :
  Forall (fun r => in_list (sentiment r) sentiment_values = true) results ->
  (count_sentiment "positive" results + count_sentiment "negative" results
   + count_sentiment "neutral" results = Z.of_nat (List.length results))%Z.
Proof.
  unfold count_sentiment.
  induction 1 as [|r results Hr _ IH]; [reflexivity|].
  cbn [filter List.length].
  unfold in_list, sentiment_values in Hr. cbn [existsb] in Hr.
  destruct (String.eqb (sentiment r) "positive") eqn:H1.
  - apply String.eqb_eq in H1. rewrite H1. cbn [String.eqb Ascii.eqb Bool.eqb].
    cbn [List.length]. lia.
  - destruct (String.eqb (sentiment r) "negative") eqn:H2.
    + apply String.eqb_eq in H2. rewrite H2 in *. cbn [List.length]. cbn. lia.
    + destruct (String.eqb (sentiment r) "neutral") eqn:H3; [|discriminate].
      cbn [List.length]. lia.
Qed.

Lemma count_sentiment_bounds (value : string) (results : list Result) :
  (0 <= count_sentiment value results <= Z.of_nat (List.length results))%Z.
Proof.
  unfold count_sentiment. pose proof (filter_length_le
    (fun r => String.eqb (sentiment r) value) results). lia.
Qed.

Lemma well_formed_inv (r : Result) :
  well_formed r = true ->
  in_list (sentiment r) sentiment_values = true
  /\ (1 <= intensity r <= 10)%Z
  /\ Json.is_str_list (emotions r) = true.
Proof.
  unfold well_formed, scalars_in_domain, lists_in_domain, nonempty_str_list.
  intro H. repeat (apply andb_prop in H; destruct H as [H ?]).
  repeat match goal with
         | H : (_ && _) = true |- _ => apply andb_prop in H; destruct H
         end.
  split; [assumption|]. split; [split; apply Z.leb_le; assumption|].
  destruct (emotions r) as [| | | | |[|x l]|]; try discriminate. assumption.
Qed.

Lemma intensity_sum_bounds (results : list Result) :
  Forall (fun r => (1 <= intensity r <= 10)%Z) results ->
  forall acc,
    (acc + Z.of_nat (List.length results)
     <= fold_left Z.add (map intensity results) acc
     <= acc + 10 * Z.of_nat (List.length results))%Z.
Proof.
  induction 1 as [|r results Hr _ IH]; intro acc; cbn [map fold_left List.length].
  - lia.
  - specialize (IH (acc + intensity r)%Z). lia.
Qed.

(** On a non-empty list of well-formed results that a Python list can hold,
    [get_summary_stats] returns, and this is what it returns. *)
Lemma get_summary_stats_well_formed float_sum (results : list Result) :
  results <> [] ->
  (Z.of_nat (List.length results) < 2 ^ 63)%Z ->
  Forall (fun r => well_formed r = true) results ->
  exists total_f avg_intensity k1 k2 k3,
    get_summary_stats float_sum results
    = Some [ ("total_analyzed", StInt (Z.of_nat (List.length results)));
             ("positive_count", StInt (count_sentiment "positive" results));
             ("negative_count", StInt (count_sentiment "negative" results));
             ("neutral_count", StInt (count_sentiment "neutral" results));
             ("positive_percentage", StFloat (tenth k1));
             ("negative_percentage", StFloat (tenth k2));
             ("neutral_percentage", StFloat (tenth k3));
             ("average_confidence",
              StFloat (PyNum.round (float_sum (map confidence results) / total_f)%float 2));
             ("average_intensity", StFloat (PyNum.round avg_intensity 1));
             ("top_emotions",
              StPairs (map tag (firstn 5 (sorted_desc
                                            (count_names (emotion_names results) []))))) ]
    /\ (0 <= k1 <= 1000)%Z /\ (0 <= k2 <= 1000)%Z /\ (0 <= k3 <= 1000)%Z
    /\ (999 <= k1 + k2 + k3 <= 1001)%Z.
Proof.
  intros Hne Hlen Hwf.
  assert (Hparts : Forall (fun r => in_list (sentiment r) sentiment_values = true) results
                   /\ Forall (fun r => (1 <= intensity r <= 10)%Z) results
                   /\ Forall (fun r => Json.is_str_list (emotions r) = true) results).
  { repeat split; eapply Forall_impl; try exact Hwf; intros r Hr;
      apply well_formed_inv in Hr; tauto. }
  destruct Hparts as (Hsent & Hint & Hemo).
  set (n := Z.of_nat (List.length results)) in *.
  assert (Hn : (0 < n)%Z).
  { unfold n. destruct results; [congruence|]. cbn [List.length]. lia. }
  destruct (float_of_int_some n) as [total_f Htotal]; [lia|].
  pose proof (intensity_sum_bounds results Hint 0%Z) as Hsum. fold n in Hsum.
  destruct (int_truediv_some (fold_left Z.add (map intensity results) 0%Z) n)
    as [avg Havg]; [lia|lia|].
  pose proof (counts_add_up results Hsent) as Hcounts. fold n in Hcounts.
  pose proof (count_sentiment_bounds "positive" results) as B1.
  pose proof (count_sentiment_bounds "negative" results) as B2.
  pose proof (count_sentiment_bounds "neutral" results) as B3.
  fold n in B1, B2, B3.
  destruct (percentage_tenths (count_sentiment "positive" results) n)
    as (k1 & P1 & K1 & U1 & D1); [lia|lia|].
  destruct (percentage_tenths (count_sentiment "negative" results) n)
    as (k2 & P2 & K2 & U2 & D2); [lia|lia|].
  destruct (percentage_tenths (count_sentiment "neutral" results) n)
    as (k3 & P3 & K3 & U3 & D3); [lia|lia|].
  exists total_f, avg, k1, k2, k3.
  split; [|split; [exact K1|split; [exact K2|split; [exact K3|]]]].
  - destruct results as [|r rs]; [congruence|].
    unfold get_summary_stats. cbv zeta. fold n.
    rewrite Htotal. cbn [obind]. rewrite Havg. cbn [obind].
    rewrite (extend_all_str_lists (r :: rs) Hemo []). cbn [app obind].
    pose proof (count_all_tag (emotion_names (r :: rs)) []) as Hc.
    cbn [map] in Hc. rewrite Hc. cbn [obind].
    rewrite P1, P2, P3. cbn [obind].
    now rewrite sorted_desc_tag, firstn_map.
  - eapply (tenths_sum (count_sentiment "positive" results)
                       (count_sentiment "negative" results)
                       (count_sentiment "neutral" results) k1 k2 k3 n);
      try eassumption.
Qed.

(** C7: for a non-empty list of results whose emotions are lists of strings,
    [top_emotions] is the first entries, at most five, of a ranking that
    lists every distinct emotion once with the number of its occurrences
    over all results, ordered by decreasing count and, among equal counts,
    by first occurrence.  [get_summary_stats] returns these statistics
    when the results are well formed. *)
Theorem top_emotions_ranking float_sum (results : list Result) :
  results <> [] ->
  Forall (fun r => Json.is_str_list (emotions r) = true) results ->
  let names := emotion_names results in
  exists ranking : list (string * Z),
    top_emotions_of results = Some (map tag (firstn 5 ranking))
    /\ (forall stats,
          get_summary_stats float_sum results = Some stats ->
          Dict.lookup stats "top_emotions" = Some (StPairs (map tag (firstn 5 ranking))))
    /\ ((Z.of_nat (List.length results) < 2 ^ 63)%Z ->
        Forall (fun r => well_formed r = true) results ->
        exists stats, get_summary_stats float_sum results = Some stats)
    /\ (List.length (firstn 5 ranking) <= 5)%nat
    /\ NoDup (map fst ranking)
    /\ (forall e, In e (map fst ranking) <-> In e names)
    /\ (forall e c, In (e, c) ranking -> c = occurrences_among names e)
    /\ StronglySorted (fun a b => (snd b <= snd a)%Z) ranking
    /\ StronglySorted (ranks_before names) ranking.
Proof.
  intros Hne Hstr names.
  exists (sorted_desc (count_names names [])).
  split; [now apply top_emotions_of_str_lists|].
  split.
  { intros stats Hstats.
    destruct (stats_top_emotions float_sum results stats Hne Hstats) as (tops & Ht & Hl).
    rewrite (top_emotions_of_str_lists results Hstr) in Ht. inversion Ht; subst.
    exact Hl. }
  split.
  { intros Hlen Hwf.
    destruct (get_summary_stats_well_formed float_sum results Hne Hlen Hwf)
      as (total_f & avg & k1 & k2 & k3 & Hstats & _).
    eexists. exact Hstats. }
  apply ranking_properties.
Qed.

(** C8, as the code has it: on a non-empty list of well-formed results each
    percentage is the binary64 number nearest to a number of tenths between
    0 and 1000, the three numbers of tenths add up to 999, 1000 or 1001,
    and the binary64 sum of the three percentages is within 0.1 of 100.0 up
    to a rounding error of 1e-14. *)
Theorem percentages_sum_nearly_hundred float_sum (results : list Result) :
  results <> [] ->
  (Z.of_nat (List.length results) < 2 ^ 63)%Z ->
  Forall (fun r => well_formed r = true) results ->
  exists stats k1 k2 k3,
    get_summary_stats float_sum results = Some stats
    /\ Dict.lookup stats "positive_percentage" = Some (StFloat (tenth k1))
    /\ Dict.lookup stats "negative_percentage" = Some (StFloat (tenth k2))
    /\ Dict.lookup stats "neutral_percentage" = Some (StFloat (tenth k3))
    /\ (0 <= k1 <= 1000)%Z /\ (0 <= k2 <= 1000)%Z /\ (0 <= k3 <= 1000)%Z
    /\ (999 <= k1 + k2 + k3 <= 1001)%Z
    /\ nearly_within_tenth (tenth k1) (tenth k2) (tenth k3) = true.
Proof.
  intros Hne Hlen Hwf.
  destruct (get_summary_stats_well_formed float_sum results Hne Hlen Hwf)
    as (total_f & avg & k1 & k2 & k3 & Hstats & K1 & K2 & K3 & Hsum).
  eexists. exists k1, k2, k3.
  split; [exact Hstats|]. repeat (split; [reflexivity|]).
  repeat (split; [assumption|]).
  now apply tenths_nearly_within_tenth.
Qed.

(** ** The empty list of results *)

(** C6, as the code has it: on the empty list [get_summary_stats] returns the
    empty dictionary: it has no key at all, whatever [sum] does. *)
Theorem get_summary_stats_empty float_sum :
  get_summary_stats float_sum [] = Some [].
Proof. reflexivity. Qed.

(** * Worked examples *)

(** C6: the statistics of the empty list hold neither [total_analyzed] nor
    any of the three counts. *)
Lemma empty_stats_have_no_counts :
  match get_summary_stats float_sum_left [] with
  | Some stats =>
      Dict.lookup stats "total_analyzed" = None
      /\ Dict.lookup stats "positive_count" = None
      /\ Dict.lookup stats "negative_count" = None
      /\ Dict.lookup stats "neutral_count" = None
  | None => False
  end.
Proof. cbn. repeat split. Qed.








(** C3: a validated record with an empty list of emotions is not well
    formed, and neither is one whose emotions are a number. *)
Lemma validated_result_with_ill_formed_emotions :
  match fst (Examples.validate_result Examples.env_down
               (JDict [("sentiment", JStr "positive"); ("emotions", JList [])])
               "text" world0) with
  | Some r => emotions r = JList [] /\ well_formed r = false
  | None => False
  end
  /\ match fst (Examples.validate_result Examples.env_down
                  (JDict [("emotions", JInt 7)]) "text" world0) with
     | Some r => emotions r = JInt 7 /\ well_formed r = false
     | None => False
     end.
Proof. split; vm_compute; split; reflexivity. Qed.

Lemma validated_scalars_witness :
  scalars_in_domain
    (mkResult "neutral" 1 (JList []) (JList []) 10 "text" (Examples.clock 0)) = true
  /\ emotions (mkResult "neutral" 1 (JList []) (JList []) 10 "text" (Examples.clock 0))
     = Json.get [("sentiment", JStr "great"); ("confidence", JInt 3);
                 ("intensity", JInt 12); ("emotions", JList [])]
                "emotions" (JList [JStr "neutral"])
  /\ key_phrases (mkResult "neutral" 1 (JList []) (JList []) 10 "text" (Examples.clock 0))
     = Json.get [("sentiment", JStr "great"); ("confidence", JInt 3);
                 ("intensity", JInt 12); ("emotions", JList [])]
                "key_phrases" (JList []).
Proof.
  exact (proj1 (results_respect_scalar_domains
                  Basic.json_loads Basic.float_of_str Basic.int_of_str Examples.env_down)
               [("sentiment", JStr "great"); ("confidence", JInt 3);
                ("intensity", JInt 12); ("emotions", JList [])]
               "text" world0
               (mkResult "neutral" 1 (JList []) (JList []) 10 "text" (Examples.clock 0))
               (mkWorld [] 1) eq_refl).
Defined.

(** C5: the text holds a positive word twice and a negative word once;
    counting occurrences labels it positive, the code labels it neutral. *)
Lemma repeated_word_counts_once :
  label_by_occurrences "good good bad" = ("positive", 0.6%float)
  /\ sentiment (fst (fallback_analysis Examples.env_down "good good bad" world0))
     = "neutral"
  /\ confidence (fst (fallback_analysis Examples.env_down "good good bad" world0))
     = 0.5%float.
Proof. repeat split. Qed.

Lemma love_occurs_once :
  forall word, In word (positive_words ++ negative_words) ->
               (PyStr.occurrences word (PyStr.lower "I LOVE it, not bad") <= 1)%nat.
Proof.
  intros word Hin. cbn in Hin.
  repeat (destruct Hin as [<-|Hin]; [vm_compute; lia|]). contradiction.
Qed.

Lemma fallback_label_witness :
  label_by_presence "I LOVE it, not bad" = label_by_occurrences "I LOVE it, not bad".
Proof.
  exact (proj2 (proj2 (proj2 (proj2 (proj2
           (fallback_analysis_counts_present_words
              Examples.env_down "I LOVE it, not bad" world0)))))
           love_occurs_once).
Defined.

Lemma three_results_well_formed :
  Forall (fun r => well_formed r = true) Examples.three_results.
Proof. repeat constructor. Qed.

Lemma three_results_not_empty : Examples.three_results <> [].
Proof. discriminate. Qed.

Lemma three_results_fit : (Z.of_nat (List.length Examples.three_results) < 2 ^ 63)%Z.
Proof. reflexivity. Qed.

Lemma three_results_are_str_lists :
  Forall (fun r => Json.is_str_list (emotions r) = true) Examples.three_results.
Proof. repeat constructor. Qed.

Lemma top_emotions_witness :
  let names := emotion_names Examples.three_results in
  exists ranking : list (string * Z),
    top_emotions_of Examples.three_results = Some (map tag (firstn 5 ranking))
    /\ (forall stats,
          get_summary_stats float_sum_left Examples.three_results = Some stats ->
          Dict.lookup stats "top_emotions" = Some (StPairs (map tag (firstn 5 ranking))))
    /\ ((Z.of_nat (List.length Examples.three_results) < 2 ^ 63)%Z ->
        Forall (fun r => well_formed r = true) Examples.three_results ->
        exists stats, get_summary_stats float_sum_left Examples.three_results = Some stats)
    /\ (List.length (firstn 5 ranking) <= 5)%nat
    /\ NoDup (map fst ranking)
    /\ (forall e, In e (map fst ranking) <-> In e names)
    /\ (forall e c, In (e, c) ranking -> c = occurrences_among names e)
    /\ StronglySorted (fun a b => (snd b <= snd a)%Z) ranking
    /\ StronglySorted (ranks_before names) ranking.
Proof.
  exact (top_emotions_ranking float_sum_left Examples.three_results
           three_results_not_empty three_results_are_str_lists).
Defined.

(** The ranking of the three example results, computed. *)
Example top_emotions_of_three_results :
  top_emotions_of Examples.three_results
  = Some [(JStr "joy", 2%Z); (JStr "happy", 2%Z); (JStr "sad", 2%Z);
          (JStr "angry", 1%Z); (JStr "calm", 1%Z)].
Proof. reflexivity. Qed.

(** C8: one positive, one negative and one neutral result: each percentage
    is 33.3, their binary64 sum is 99.89999999999999, and its distance from
    100.0 is more than 0.1. *)
Lemma three_thirds_miss_the_tenth :
  match get_summary_stats float_sum_left Examples.three_results with
  | Some stats =>
      Dict.lookup stats "positive_percentage" = Some (StFloat 33.3%float)
      /\ Dict.lookup stats "negative_percentage" = Some (StFloat 33.3%float)
      /\ Dict.lookup stats "neutral_percentage" = Some (StFloat 33.3%float)
  | None => False
  end
  /\ (33.3 + 33.3 + 33.3 = 99.89999999999999)%float
  /\ off_hundred 33.3 33.3 33.3 = 0.10000000000000853%float
  /\ within_tenth 33.3 33.3 33.3 = false.
Proof. vm_compute. repeat split. Qed.

Lemma percentages_witness :
  exists stats k1 k2 k3,
    get_summary_stats float_sum_left Examples.three_results = Some stats
    /\ Dict.lookup stats "positive_percentage" = Some (StFloat (tenth k1))
    /\ Dict.lookup stats "negative_percentage" = Some (StFloat (tenth k2))
    /\ Dict.lookup stats "neutral_percentage" = Some (StFloat (tenth k3))
    /\ (0 <= k1 <= 1000)%Z /\ (0 <= k2 <= 1000)%Z /\ (0 <= k3 <= 1000)%Z
    /\ (999 <= k1 + k2 + k3 <= 1001)%Z
    /\ nearly_within_tenth (tenth k1) (tenth k2) (tenth k3) = true.
Proof.
  exact (percentages_sum_nearly_hundred float_sum_left Examples.three_results
           three_results_not_empty three_results_fit three_results_well_formed).
Defined.
